(** * Regression of reversible first-order kinetics: model and properties

    A shallow embedding of the regression core of [FittingExercise.ipynb]:
    the concentration model [func], the residual function [leastsqfunc]
    handed to [scipy.optimize.leastsq], and the post-processing of the
    solver's output into standard errors and published parameter records.

    Conventions of the embedding.
    - Python and NumPy floats are idealised as real numbers ([R]); rounding
      error, overflow and underflow are outside the model, and so is the
      division by a float zero: [func] divides by [R*T], and at [T = 0]
      Python raises [ZeroDivisionError] or NumPy returns [inf] or [nan],
      according to the number types, where the quotient of the model is a
      number.  What is stated of the values of [func] on the inputs of the
      specification is stated for [T > 0].  The one non-number the code can
      produce from numbers by a domain error, [np.sqrt] of a negative
      entry, is kept as [NaN] (see [npfloat]).
    - Python exceptions are values of [exn]; a computation returns [py A].
    - The cells of the notebook that import libraries and define the
      record types (cells 1, 2 and 4) have run: the names they bind ([np],
      [scipy], [plt], [namedtuple], [ExperimentData], [plot_experiment])
      are bound in every state.  The names bound by the cells of the
      regression are part of the state ([Globals]).
    - NumPy arrays bound to names live in an explicit memory ([Mem]), since
      [leastsqfunc] fills [C_A_fit] by in-place slice assignment.
    - [scipy.optimize.leastsq] is an external library: a solver is a
      variable of the sections that need one. *)

From Stdlib Require Import Reals Lra Lia List ZArith Bool PeanoNat.
From Stdlib Require Import FunctionalExtensionality.
Import ListNotations.

Open Scope R_scope.

(** ** The concentration model (notebook cell 9, [func]) *)

Module Model.

(** [func(t, C_0, T, logA, E_a, dH, dS)] for a scalar time.  The local
    variable [R = 8.314] of the source is called [R_gas] here, [R] being the
    type of real numbers; [10**(logA)] is [Rpower 10 logA].  The value is
    that of the source where its float arithmetic is exact: in particular
    for [T <> 0], the three quotients by [R*T] having no value in Python
    at [T = 0]. *)
Definition func (t C_0 T logA E_a dH dS : R) : R :=
  let R_gas := 8.314 in
  let C_1 := C_0 - C_0 / (exp ((dH - T * dS) / (R_gas * T)) + 1) in
  let x := C_0 / (exp ((dH - T * dS) / (R_gas * T)) + 1) in
  let exponential :=
    exp (t * Rpower 10 logA * exp ((- E_a) / (R_gas * T)) * (-1)
         * (1 + 1 / (exp ((dH - T * dS) / (R_gas * T))))) in
  x + C_1 * exponential.

(** [func] applied to an array of times (NumPy broadcasting of the scalar
    arguments): one prediction per time, in order. *)
Definition np_func (t : list R) (C_0 T logA E_a dH dS : R) : list R :=
  map (fun ti => func ti C_0 T logA E_a dH dS) t.

(** *** Named parts of [func]

    The sub-expressions of [func], named as in the notebook's derivation
    ([Delta G = R T ln K], [K_c = k_f / k_r]). *)

Definition R_gas : R := 8.314.

(** The equilibrium term as the code computes it:
    [exp((dH - T*dS)/(R*T))]. *)
Definition K_code (T dH dS : R) : R := exp ((dH - T * dS) / (R_gas * T)).

(** The value [x] of [func]: the concentration reached as [t] grows. *)
Definition C_A_eq (C_0 T dH dS : R) : R := C_0 / (K_code T dH dS + 1).

(** Arrhenius forward rate coefficient [10**logA * exp(-E_a/(R*T))]. *)
Definition kf (T logA E_a : R) : R :=
  Rpower 10 logA * exp ((- E_a) / (R_gas * T)).

(** The relaxation rate read off the exponent of [func]. *)
Definition k_total (T logA E_a dH dS : R) : R :=
  kf T logA E_a * (1 + 1 / K_code T dH dS).

(** *** The reference definition of the specification

    [predict_reference] follows the words of the specification: the
    equilibrium constant is [Kc = exp(-(dH - T*dS)/(R*T))]. *)

Definition Kc_reference (T dH dS : R) : R :=
  exp (- (dH - T * dS) / (R_gas * T)).

Definition predict_reference (t C0 T log10_A Ea dH dS : R) : R :=
  let Kc := Kc_reference T dH dS in
  let C_A_eq := C0 / (Kc + 1) in
  let kf := Rpower 10 log10_A * exp ((- Ea) / (R_gas * T)) in
  let k_total := kf * (1 + 1 / Kc) in
  C_A_eq + (C0 - C_A_eq) * exp (- k_total * t).

(** The equilibrium concentration in the words of the specification:
    [C_A_eq = C0 / (Kc + 1)] with the reference [Kc]. *)
Definition C_A_eq_reference (C0 T dH dS : R) : R :=
  C0 / (Kc_reference T dH dS + 1).

End Model.

(** ** Python and NumPy run time *)

Module Py.

(** The exceptions the modelled code can raise.  [BadReference] has no
    Python counterpart: it is the reading of a location outside the memory,
    which no well-formed program state allows. *)
Inductive exn : Set :=
  | IndexError | ValueError | TypeError | NameError | BadReference.

Inductive py (A : Type) : Type :=
  | Ok (a : A)
  | Raise (e : exn).
Arguments Ok {A} a.
Arguments Raise {A} e.

(** State and exceptions: a raised exception keeps the state reached. *)
Definition St (S A : Type) : Type := S -> py A * S.

Definition ret {S A : Type} (a : A) : St S A := fun s => (Ok a, s).

Definition bind {S A B : Type} (m : St S A) (k : A -> St S B) : St S B :=
  fun s =>
    match m s with
    | (Ok a, s') => k a s'
    | (Raise e, s') => (Raise e, s')
    end.

Definition lift {S A : Type} (r : py A) : St S A := fun s => (r, s).

Declare Scope py_scope.
Delimit Scope py_scope with py.
Notation "x <- m ;; k" := (bind m (fun x => k))
  (at level 61, m at next level, right associativity) : py_scope.
Notation "m ;; k" := (bind m (fun _ => k))
  (at level 61, right associativity) : py_scope.

(** [l[i]] on a tuple, list or one-dimensional array, [i >= 0]. *)
Definition index {A : Type} (l : list A) (i : nat) : py A :=
  match nth_error l i with
  | Some x => Ok x
  | None => Raise IndexError
  end.

(** [l[start:stop]] for non-negative bounds; [stop = None] is an omitted
    upper bound.  Bounds beyond the end are clipped, as Python does. *)
Definition slice {A : Type} (start : nat) (stop : option nat) (l : list A)
  : list A :=
  skipn start (match stop with Some e => firstn e l | None => l end).

(** *** One-dimensional NumPy arrays of floats *)

(** The array [a] with the entries from [start] on replaced by those of
    [v], as many as [v] has. *)
Definition assigned (a : list R) (start : nat) (v : list R) : list R :=
  firstn start a ++ v ++ skipn (start + length v) a.

(** The array after [a[start:stop] = v]: the value must have the length of
    the slice, or length one (it is then broadcast); otherwise NumPy raises
    [ValueError]. *)
Definition slice_assign (a : list R) (start : nat) (stop : option nat)
  (v : list R) : py (list R) :=
  let k := length (slice start stop a) in
  if Nat.eqb (length v) k then
    Ok (assigned a start v)
  else
    match v with
    | [x] => Ok (assigned a start (repeat x k))
    | _ => Raise ValueError
    end.

(** [a - b] with NumPy broadcasting of one-dimensional shapes. *)
Definition np_sub (a b : list R) : py (list R) :=
  if Nat.eqb (length a) (length b) then
    Ok (map (fun p => fst p - snd p) (combine a b))
  else
    match a, b with
    | [x], _ => Ok (map (fun y => x - y) b)
    | _, [y] => Ok (map (fun x => x - y) a)
    | _, _ => Raise ValueError
    end.

(** *** Memory

    Arrays bound to names are referred to by location.  [np.empty] returns
    an array of arbitrary contents: [junk l i] is what the fresh array at
    location [l] holds at index [i]. *)
Definition loc : Set := nat.

Record Mem : Type := mkMem {
  heap : list (list R);
  junk : loc -> nat -> R
}.

Definition M : Type -> Type := St Mem.

(** A new array with the given contents ([np.array], [np.concatenate],
    the result of an arithmetic operation bound to a name). *)
Definition np_array (a : list R) : M loc :=
  fun m => (Ok (length (heap m)), mkMem (heap m ++ [a]) (junk m)).

(** [np.empty((n,))]. *)
Definition np_empty (n : nat) : M loc :=
  fun m => np_array (map (junk m (length (heap m))) (seq 0 n)) m.

Definition load (l : loc) : M (list R) :=
  fun m =>
    match nth_error (heap m) l with
    | Some a => (Ok a, m)
    | None => (Raise BadReference, m)
    end.

Fixpoint set_nth {A : Type} (l : list A) (i : nat) (x : A) : list A :=
  match l, i with
  | [], _ => []
  | _ :: r, O => x :: r
  | y :: r, S j => y :: set_nth r j x
  end.

Definition store (l : loc) (a : list R) : M unit :=
  fun m =>
    match nth_error (heap m) l with
    | Some _ => (Ok tt, mkMem (set_nth (heap m) l a) (junk m))
    | None => (Raise BadReference, m)
    end.

(** [a.shape] of a one-dimensional array: its length. *)
Definition shape (l : loc) : M nat :=
  (a <- load l ;; ret (length a))%py.

(** [a[start:stop]] read from the array at [l]. *)
Definition load_slice (l : loc) (start : nat) (stop : option nat)
  : M (list R) :=
  (a <- load l ;; ret (slice start stop a))%py.

(** [a[start:stop] = v] on the array at [l], in place. *)
Definition store_slice (l : loc) (start : nat) (stop : option nat)
  (v : list R) : M unit :=
  (a <- load l ;;
   a' <- lift (slice_assign a start stop v) ;;
   store l a')%py.

End Py.

(** ** The residual function (notebook cell 9, [leastsqfunc]) *)

Module Residuals.
Import Model Py.
Local Open Scope py_scope.

(** Module-level constants of cell 9. *)
Definition n1 : nat := 10.
Definition n2 : nat := 20.

(** The tuple [arguments] that [scipy.optimize.leastsq] passes on:
    [(tcombined, C_A, C_0, T, bounds)], the two arrays by reference. *)
Record Arguments : Type := mkArguments {
  arg_tcombined : loc;
  arg_C_A : loc;
  arg_C_0 : list R;
  arg_T : list R;
  arg_bounds : nat * nat
}.

Definition leastsqfunc (parameters : list R) (arguments : Arguments)
  : M (list R) :=
  logA <- lift (index parameters 0) ;;
  E_a <- lift (index parameters 1) ;;
  dH <- lift (index parameters 2) ;;
  dS <- lift (index parameters 3) ;;
  let tcombined := arg_tcombined arguments in
  let C_A := arg_C_A arguments in
  let C_0 := arg_C_0 arguments in
  let T := arg_T arguments in
  n <- shape tcombined ;;
  C_A_fit <- np_empty n ;;
  ts <- load_slice tcombined 0 (Some n1) ;;
  c <- lift (index C_0 0) ;;
  temp <- lift (index T 0) ;;
  store_slice C_A_fit 0 (Some n1) (np_func ts c temp logA E_a dH dS) ;;
  ts <- load_slice tcombined n1 (Some n2) ;;
  c <- lift (index C_0 1) ;;
  temp <- lift (index T 1) ;;
  store_slice C_A_fit n1 (Some n2) (np_func ts c temp logA E_a dH dS) ;;
  ts <- load_slice tcombined n2 None ;;
  c <- lift (index C_0 2) ;;
  temp <- lift (index T 2) ;;
  store_slice C_A_fit n2 None (np_func ts c temp logA E_a dH dS) ;;
  obs <- load C_A ;;
  fit <- load C_A_fit ;;
  lift (np_sub obs fit).

(** *** Experiments and the residual vector of the specification *)

(** One [ExperimentData] named tuple, its two arrays by their contents: no
    statement of the notebook writes into an array of an experiment. *)
Record ExperimentData : Type := mkExperimentData {
  T : R;
  cA_start : R;
  times : list R;
  cA : list R
}.

(** Observed minus predicted, observation by observation. *)
Definition experiment_residuals (logA E_a dH dS : R) (e : ExperimentData)
  : list R :=
  map (fun p => snd p - func (fst p) (cA_start e) (T e) logA E_a dH dS)
      (combine (times e) (cA e)).

(** The residual vector the specification describes: the experiments'
    residuals, concatenated in the order of the experiments. *)
Definition residuals_spec (logA E_a dH dS : R) (es : list ExperimentData)
  : list R :=
  flat_map (experiment_residuals logA E_a dH dS) es.

Definition observation_count (es : list ExperimentData) : nat :=
  list_sum (map (fun e => length (cA e)) es).

(** The arguments of [leastsqfunc] for a sequence of experiments, built as
    cell 9 builds them for its three: the times and the concentrations
    concatenated into two new arrays, the initial concentrations and the
    temperatures as tuples, and the pair [(n1, n1+n2)]. *)
Definition arguments_of (es : list ExperimentData) : M Arguments :=
  tcombined <- np_array (concat (map times es)) ;;
  C_A <- np_array (concat (map cA es)) ;;
  ret (mkArguments tcombined C_A (map cA_start es) (map T es)
         (n1, (n1 + n2)%nat)).

(** [leastsqfunc] on the arguments built from [es], from memory [m]. *)
Definition residuals (parameters : list R) (es : list ExperimentData)
  (m : Mem) : py (list R) :=
  fst ((arguments <- arguments_of es ;; leastsqfunc parameters arguments) m).

End Residuals.

(** ** The data of the notebook (cells 6, 7 and 9) *)

Module Data.
Import Py Residuals.

(** [array([10, 20, ..., 100])] of cell 6, and [np.arange(10, 110, 10)] of
    cell 9. *)
Definition t : list R := [10; 20; 30; 40; 50; 60; 70; 80; 90; 100].

Definition experiment_0 : ExperimentData :=
  mkExperimentData 298.15 10.0 t
    [8.649; 7.441; 7.141; 6.366; 6.215; 5.990; 5.852; 5.615; 5.481; 5.644].

Definition experiment_1 : ExperimentData :=
  mkExperimentData 308.15 10.0 t
    [7.230; 6.073; 5.452; 5.317; 5.121; 4.998; 4.951; 4.978; 5.015; 5.036].

Definition experiment_2 : ExperimentData :=
  mkExperimentData 323.15 10.0 t
    [5.137; 4.568; 4.548; 4.461; 4.382; 4.525; 4.483; 4.565; 4.459; 4.635].

Definition experiments : list ExperimentData :=
  [experiment_0; experiment_1; experiment_2].

(** Cell 9: the arrays and tuples typed in for the solver. *)
Definition tcombined : list R := t ++ t ++ t.

Definition C_A : list R :=
  [8.649; 7.441; 7.141; 6.366; 6.215; 5.99; 5.852; 5.615; 5.481; 5.644;
   7.23; 6.073; 5.452; 5.317; 5.121; 4.998; 4.951; 4.978; 5.015; 5.036;
   5.137; 4.568; 4.548; 4.461; 4.382; 4.525; 4.483; 4.565; 4.459; 4.635].

Definition parameters_0 : list R := [6; 45e3; -10e3; -50].

Definition C_0_tuple : list R := [10; 10; 10].
Definition T_tuple : list R := [298.15; 308.15; 323.15].

(** A memory with no array yet; its [np.empty] happens to return zeros. *)
Definition fresh_memory : Mem := mkMem [] (fun _ _ => 0).

(** The first two experiments followed by a third of a single observation. *)
Definition short_third : list ExperimentData :=
  [experiment_0; experiment_1;
   mkExperimentData 323.15 10.0 [10] [5.137]].

End Data.

(** ** Standard errors and published records (notebook cells 7 and 10) *)

Module Report.
Import Py.
Local Open Scope py_scope.

(** A NumPy float as the post-processing sees it: a number, or the [nan]
    that [np.sqrt] returns (with a warning, not an exception) on a negative
    argument. *)
Inductive npfloat : Type :=
  | Num (r : R)
  | NaN.

Definition np_sqrt (x : R) : npfloat :=
  if Rle_dec 0 x then Num (sqrt x) else NaN.

(** [x / d] for a number [d]; [nan] stays [nan]. *)
Definition np_div (x : npfloat) (d : R) : npfloat :=
  match x with
  | Num r => Num (r / d)
  | NaN => NaN
  end.

(** Rounding to the nearest integer, ties to the even one (Python's
    [round] and NumPy's alike). *)
Definition round_half_even (x : R) : Z :=
  let f := Int_part x in
  let d := x - IZR f in
  if Rlt_dec d (1 / 2) then f
  else if Rlt_dec (1 / 2) d then (f + 1)%Z
  else if Z.even f then f else (f + 1)%Z.

(** [round(x)] on a NumPy float, as the version behind the notebook's
    recorded output does it (it prints [logA=9.0]): the result is again a
    float, and [nan] rounds to [nan]. *)
Definition round (x : npfloat) : npfloat :=
  match x with
  | Num r => Num (IZR (round_half_even r))
  | NaN => NaN
  end.

(** [ParameterSet = namedtuple('ParameterSet', ['logA','Ea','dH','dS'])]. *)
Record ParameterSet : Type := mkParameterSet {
  logA : npfloat;
  Ea : npfloat;
  dH : npfloat;
  dS : npfloat
}.

(** The covariance as [leastsq] returns it: a two-dimensional array, given
    by its rows, or [None]. *)
Definition matrix : Type := list (list R).

Fixpoint diag_from (i : nat) (rows : matrix) : list R :=
  match rows with
  | [] => []
  | r :: rest =>
      match nth_error r i with
      | Some x => x :: diag_from (S i) rest
      | None => []
      end
  end.

(** [np.diag(cov)]: the main diagonal of a two-dimensional array;
    [np.diag(None)] raises [ValueError]. *)
Definition np_diag (cov : option matrix) : py (list R) :=
  match cov with
  | Some rows => Ok (diag_from 0 rows)
  | None => Raise ValueError
  end.

(** [stderr = np.sqrt(np.diag(cov))]. *)
Definition stderr_of (cov : option matrix) : py (list npfloat) :=
  match np_diag cov with
  | Ok d => Ok (map np_sqrt d)
  | Raise e => Raise e
  end.

(** [optimized_parameters = ParameterSet(logA = round(result[0]), ...)]. *)
Definition optimized_parameters_of (result : list R) : py ParameterSet :=
  match index result 0, index result 1, index result 2, index result 3 with
  | Ok r0, Ok r1, Ok r2, Ok r3 =>
      Ok (mkParameterSet
            (round (Num r0))
            (round (np_div (Num r1) 1000))
            (round (np_div (Num r2) 1000))
            (round (Num r3)))
  | _, _, _, _ => Raise IndexError
  end.

(** [standard_errors = ParameterSet(logA = round(stderr[0]), ...)]. *)
Definition standard_errors_of (stderr : list npfloat) : py ParameterSet :=
  match index stderr 0, index stderr 1, index stderr 2, index stderr 3 with
  | Ok s0, Ok s1, Ok s2, Ok s3 =>
      Ok (mkParameterSet
            (round s0)
            (round (np_div s1 1000))
            (round (np_div s2 1000))
            (round s3))
  | _, _, _, _ => Raise IndexError
  end.

(** [cov[i][i]]: [None] is not subscriptable. *)
Definition cov_entry (cov : option matrix) (i : nat) : py R :=
  match cov with
  | None => Raise TypeError
  | Some rows =>
      match index rows i with
      | Ok r => index r i
      | Raise e => Raise e
      end
  end.

(** One turn of the loop of cell 10:
    [try: error.append(np.absolute(cov[i][i])**0.5)]
    [except: error.append(0.00)]; the power [**0.5] of a non-negative
    number is its square root. *)
Definition error_append (cov : option matrix) (error : list R) (i : nat)
  : list R :=
  match cov_entry cov i with
  | Ok c => error ++ [sqrt (Rabs c)]
  | Raise _ => error ++ [0.00]
  end.

(** The list [error] after [for i in range(len(result))]. *)
Definition error_loop (result : list R) (cov : option matrix) : list R :=
  fold_left (error_append cov) (seq 0 (length result)) [].

(** The zero placeholders of cell 7. *)
Definition placeholder : ParameterSet :=
  mkParameterSet (Num 0) (Num 0) (Num 0) (Num 0).

Definition starting_guess : ParameterSet :=
  mkParameterSet (Num 6) (Num 45) (Num (-10)) (Num (-50)).

(** *** The covariance of the specification

    In the words of the specification: the residual variance is
    [SSR / (n_obs - n_params)], and the covariance is the inverse of
    [JtJ] scaled by it. *)

Definition residual_variance (SSR : R) (n_obs n_params : nat) : R :=
  SSR / (INR n_obs - INR n_params).

Definition spec_covariance (SSR : R) (n_obs n_params : nat)
  (JtJ_inv : matrix) : matrix :=
  map (map (fun x => residual_variance SSR n_obs n_params * x)) JtJ_inv.

(** [SSR], the sum of the squared residuals. *)
Definition sum_of_squares (r : list R) : R :=
  fold_right (fun x s => x * x + s) 0 r.

(** A covariance of four rows of four entries. *)
Definition is_4x4 (rows : matrix) : Prop :=
  length rows = 4%nat /\ Forall (fun r => length r = 4%nat) rows.

End Report.

(** ** The notebook as a state machine (cells 6, 7, 9 and 10) *)

Module Notebook.
Import Model Py Residuals Report.
Local Open Scope py_scope.

(** The global names the cells of the regression bind and read.  A name
    bound to data is [None] until it is assigned.  Of the two names bound
    to a function or a class, [array] (NumPy's, imported by cell 6) and
    [ParameterSet] (the named-tuple class made by cell 7), the state keeps
    whether they are bound.  Reading a name that is not bound raises
    [NameError]. *)
Record Globals : Type := mkGlobals {
  g_mem : Mem;
  g_array : bool;
  g_experiments : option (list ExperimentData);
  g_ParameterSet : bool;
  g_starting_guess : option ParameterSet;
  g_optimized_parameters : option ParameterSet;
  g_standard_errors : option ParameterSet;
  g_tcombined : option loc;
  g_C_A : option loc;
  g_result : option (list R);
  g_cov : option (option matrix);
  g_stderr : option (list npfloat);
  g_perr_leastsq : option (list R)
}.

Definition N : Type -> Type := St Globals.

Definition name {A : Type} (read : Globals -> option A) : N A :=
  fun g =>
    match read g with
    | Some a => (Ok a, g)
    | None => (Raise NameError, g)
    end.

(** Reading a name bound to a function or a class, to call it. *)
Definition bound (read : Globals -> bool) : N unit :=
  fun g => if read g then (Ok tt, g) else (Raise NameError, g).

(** Run a memory operation on the notebook's memory. *)
Definition in_mem {A : Type} (c : M A) : N A :=
  fun g =>
    let (r, m) := c (g_mem g) in
    (r, mkGlobals m (g_array g) (g_experiments g) (g_ParameterSet g)
          (g_starting_guess g)
          (g_optimized_parameters g) (g_standard_errors g)
          (g_tcombined g) (g_C_A g) (g_result g) (g_cov g)
          (g_stderr g) (g_perr_leastsq g)).

(** [from numpy import array]. *)
Definition set_array : N unit :=
  fun g =>
    (Ok tt, mkGlobals (g_mem g) true (g_experiments g) (g_ParameterSet g)
              (g_starting_guess g)
              (g_optimized_parameters g) (g_standard_errors g)
              (g_tcombined g) (g_C_A g) (g_result g) (g_cov g)
              (g_stderr g) (g_perr_leastsq g)).

Definition set_experiments (v : list ExperimentData) : N unit :=
  fun g =>
    (Ok tt, mkGlobals (g_mem g) (g_array g) (Some v) (g_ParameterSet g)
              (g_starting_guess g)
              (g_optimized_parameters g) (g_standard_errors g)
              (g_tcombined g) (g_C_A g) (g_result g) (g_cov g)
              (g_stderr g) (g_perr_leastsq g)).

(** [ParameterSet = namedtuple('ParameterSet', ...)]. *)
Definition set_ParameterSet : N unit :=
  fun g =>
    (Ok tt, mkGlobals (g_mem g) (g_array g) (g_experiments g) true
              (g_starting_guess g)
              (g_optimized_parameters g) (g_standard_errors g)
              (g_tcombined g) (g_C_A g) (g_result g) (g_cov g)
              (g_stderr g) (g_perr_leastsq g)).

Definition set_starting_guess (v : ParameterSet) : N unit :=
  fun g =>
    (Ok tt, mkGlobals (g_mem g) (g_array g) (g_experiments g)
              (g_ParameterSet g) (Some v)
              (g_optimized_parameters g) (g_standard_errors g)
              (g_tcombined g) (g_C_A g) (g_result g) (g_cov g)
              (g_stderr g) (g_perr_leastsq g)).

Definition set_optimized_parameters (v : ParameterSet) : N unit :=
  fun g =>
    (Ok tt, mkGlobals (g_mem g) (g_array g) (g_experiments g)
              (g_ParameterSet g) (g_starting_guess g)
              (Some v) (g_standard_errors g)
              (g_tcombined g) (g_C_A g) (g_result g) (g_cov g)
              (g_stderr g) (g_perr_leastsq g)).

Definition set_standard_errors (v : ParameterSet) : N unit :=
  fun g =>
    (Ok tt, mkGlobals (g_mem g) (g_array g) (g_experiments g)
              (g_ParameterSet g) (g_starting_guess g)
              (g_optimized_parameters g) (Some v)
              (g_tcombined g) (g_C_A g) (g_result g) (g_cov g)
              (g_stderr g) (g_perr_leastsq g)).

Definition set_tcombined (tcombined : loc) : N unit :=
  fun g =>
    (Ok tt, mkGlobals (g_mem g) (g_array g) (g_experiments g)
              (g_ParameterSet g) (g_starting_guess g)
              (g_optimized_parameters g) (g_standard_errors g)
              (Some tcombined) (g_C_A g) (g_result g) (g_cov g)
              (g_stderr g) (g_perr_leastsq g)).

Definition set_C_A (C_A : loc) : N unit :=
  fun g =>
    (Ok tt, mkGlobals (g_mem g) (g_array g) (g_experiments g)
              (g_ParameterSet g) (g_starting_guess g)
              (g_optimized_parameters g) (g_standard_errors g)
              (g_tcombined g) (Some C_A) (g_result g) (g_cov g)
              (g_stderr g) (g_perr_leastsq g)).

Definition set_fit (result : list R) (cov : option matrix) : N unit :=
  fun g =>
    (Ok tt, mkGlobals (g_mem g) (g_array g) (g_experiments g)
              (g_ParameterSet g) (g_starting_guess g)
              (g_optimized_parameters g) (g_standard_errors g)
              (g_tcombined g) (g_C_A g) (Some result) (Some cov)
              (g_stderr g) (g_perr_leastsq g)).

Definition set_stderr (v : list npfloat) : N unit :=
  fun g =>
    (Ok tt, mkGlobals (g_mem g) (g_array g) (g_experiments g)
              (g_ParameterSet g) (g_starting_guess g)
              (g_optimized_parameters g) (g_standard_errors g)
              (g_tcombined g) (g_C_A g) (g_result g) (g_cov g)
              (Some v) (g_perr_leastsq g)).

Definition set_perr_leastsq (v : list R) : N unit :=
  fun g =>
    (Ok tt, mkGlobals (g_mem g) (g_array g) (g_experiments g)
              (g_ParameterSet g) (g_starting_guess g)
              (g_optimized_parameters g) (g_standard_errors g)
              (g_tcombined g) (g_C_A g) (g_result g) (g_cov g)
              (g_stderr g) (Some v)).

(** A computation that leaves the global read by [proj] as it was,
    whether it returns or raises. *)
Definition keeps {A B : Type} (proj : Globals -> B) (c : N A) : Prop :=
  forall g : Globals, proj (snd (c g)) = proj g.

(** The notebook once its cells 1 to 4 have run and before any cell of the
    regression has: none of the names of [Globals] is bound. *)
Definition start (m : Mem) : Globals :=
  mkGlobals m false None false None None None None None None None None None.

(** Cell 6: [from numpy import array], then the three experiments (the
    printing and plotting of each are left out: they read the records and
    call the plotting library). *)
Definition cell6 : N unit :=
  set_array ;;
  set_experiments Data.experiments.

(** Cell 7: the class [ParameterSet], the starting guess and the two zero
    placeholders. *)
Definition cell7 : N unit :=
  set_ParameterSet ;;
  bound g_ParameterSet ;;
  set_starting_guess starting_guess ;;
  bound g_ParameterSet ;;
  set_optimized_parameters placeholder ;;
  bound g_ParameterSet ;;
  set_standard_errors placeholder.

Section Solver.

(** [scipy.optimize.leastsq(f, x0, args=..., full_output=1)], reduced to
    what the notebook keeps of its five results: the solution and [cov_x].
    The residual function is given as the map from a parameter vector to
    what it returns or raises. *)
Variable leastsq :
  (list R -> py (list R)) -> list R -> py (list R * option matrix).

(** Cell 9, from [t = np.arange(10, 110, 10)] to the reading of the four
    fitted values; the plots that follow are left out.  [C_A = array(...)]
    reads the name [array], which cell 6 binds.  Each call of
    [leastsqfunc] by the solver starts from the memory of the call of
    [leastsq]: the buffer a call allocates is unreachable once it
    returns. *)
Definition cell9 : N unit :=
  t <- in_mem (np_array Data.t) ;;
  ts <- in_mem (load t) ;;
  tcombined <- in_mem (np_array (ts ++ ts ++ ts)) ;;
  set_tcombined tcombined ;;
  bound g_array ;;
  C_A <- in_mem (np_array Data.C_A) ;;
  set_C_A C_A ;;
  let parameters_0 := Data.parameters_0 in
  let arguments :=
    mkArguments tcombined C_A Data.C_0_tuple Data.T_tuple
      (n1, (n1 + n2)%nat) in
  fit <- (fun g =>
            (leastsq (fun p => fst (leastsqfunc p arguments (g_mem g)))
               parameters_0, g)) ;;
  set_fit (fst fit) (snd fit) ;;
  result <- name g_result ;;
  _ <- lift (index result 0) ;;
  _ <- lift (index result 1) ;;
  _ <- lift (index result 2) ;;
  _ <- lift (index result 3) ;;
  ret tt.

End Solver.

(** The loop of cell 10, turn by turn: [perr_leastsq] is rebound at the end
    of every turn.  The name [pfit_leastsq], bound in the [except] branch
    and read nowhere, is left out. *)
Fixpoint error_turns (cov : option matrix) (range : list nat)
  (error : list R) : N unit :=
  match range with
  | [] => ret tt
  | i :: rest =>
      let error' := error_append cov error i in
      set_perr_leastsq error' ;;
      error_turns cov rest error'
  end.

(** Cell 10.  Each of the two records is built by a call of
    [ParameterSet], a name cell 7 binds; the name is read before the
    arguments of the call are evaluated. *)
Definition cell10 : N unit :=
  cov <- name g_cov ;;
  stderr <- lift (stderr_of cov) ;;
  set_stderr stderr ;;
  bound g_ParameterSet ;;
  result <- name g_result ;;
  p <- lift (optimized_parameters_of result) ;;
  set_optimized_parameters p ;;
  bound g_ParameterSet ;;
  s <- lift (standard_errors_of stderr) ;;
  set_standard_errors s ;;
  error_turns cov (seq 0 (length result)) [] ;;
  _ <- name g_perr_leastsq ;;
  ret tt.

(** The cells of the regression, in any order a session may run them. *)
Inductive cell : Set := Cell6 | Cell7 | Cell9 | Cell10.

Section Session.

Variable leastsq :
  (list R -> py (list R)) -> list R -> py (list R * option matrix).

Definition run_cell (c : cell) : N unit :=
  match c with
  | Cell6 => cell6
  | Cell7 => cell7
  | Cell9 => cell9 leastsq
  | Cell10 => cell10
  end.

(** A session: the cells run one after the other; a cell that raises stops
    there and keeps what it had assigned, and the session goes on with the
    next cell. *)
Fixpoint run (cs : list cell) (g : Globals) : Globals :=
  match cs with
  | [] => g
  | c :: rest => run rest (snd (run_cell c g))
  end.

End Session.

End Notebook.

(** ** The output recorded in the notebook *)

Module Recorded.
Import Py Report.

(** [print (cov)] at the end of cell 9, as stored with the notebook. *)
Definition cov : matrix :=
  [[1.70681232e+01; 9.93213114e+04; 1.33269099e+04; 4.26675496e+01];
   [9.93213114e+04; 5.78365117e+08; 7.98577276e+07; 2.55404512e+05];
   [1.33269099e+04; 7.98577276e+07; 7.90860543e+07; 2.51296732e+05];
   [4.26675496e+01; 2.55404512e+05; 2.51296732e+05; 7.99196786e+02]].

(** [print(standard_errors)] of the last cell:
    [ParameterSet(logA=4.0, Ea=24.0, dH=9.0, dS=28.0)]. *)
Definition standard_errors : ParameterSet :=
  mkParameterSet (Num 4) (Num 24) (Num 9) (Num 28).

(** A solver that finds the curvature flat: it evaluates the residual
    function at its starting point and, unless that raises, returns the
    starting point and [None] for [cov_x] (what [leastsq] documents for a
    singular matrix). *)
Definition flat_solver (f : list R -> py (list R)) (x0 : list R)
  : py (list R * option matrix) :=
  match f x0 with
  | Ok _ => Ok (x0, None)
  | Raise e => Raise e
  end.

(** A solver that evaluates the residual function at its starting point
    and, unless that raises, returns the starting point with the recorded
    covariance. *)
Definition recorded_solver (f : list R -> py (list R)) (x0 : list R)
  : py (list R * option matrix) :=
  match f x0 with
  | Ok _ => Ok (x0, Some cov)
  | Raise e => Raise e
  end.

(** A covariance with a negative entry on its diagonal. *)
Definition negative_cov : matrix :=
  [[-4; 0; 0; 0]; [0; 1; 0; 0]; [0; 0; 1; 0]; [0; 0; 0; 1]].

End Recorded.

(** ** The kinetics behind [func] (notebook cell 0) *)

Module Kinetics.
Import Model.

(** The reverse rate coefficient of the notebook's derivation,
    [K_c = k_f / k_r], with the equilibrium term as [func] computes it. *)
Definition kr (T logA E_a dH dS : R) : R :=
  kf T logA E_a / K_code T dH dS.

(** The net rate of formation of A of the notebook,
    [r = k_r C_B - k_f C_A], in a batch started without B:
    [C_B = C_0 - C_A]. *)
Definition net_rate (C_0 T logA E_a dH dS C_A : R) : R :=
  kr T logA E_a dH dS * (C_0 - C_A) - kf T logA E_a * C_A.

(** The time after which half of the way to equilibrium is covered. *)
Definition half_life (T logA E_a dH dS : R) : R :=
  ln 2 / k_total T logA E_a dH dS.

End Kinetics.

(** ** Variations on the experiments *)

Module Variants.
Import Model Py Residuals.

(** The predictions [leastsqfunc] leaves in [C_A_fit]: the three slices of
    the combined times, each with its initial concentration and
    temperature. *)
Definition predictions (logA E_a dH dS : R) (tc : list R)
  (c0 T0 c1 T1 c2 T2 : R) : list R :=
  np_func (slice 0 (Some n1) tc) c0 T0 logA E_a dH dS
  ++ np_func (slice n1 (Some n2) tc) c1 T1 logA E_a dH dS
  ++ np_func (slice n2 None tc) c2 T2 logA E_a dH dS.

(** The third experiment with the observations of all the experiments
    that follow it appended to its own. *)
Definition merged_tail (e2 : ExperimentData) (more : list ExperimentData)
  : ExperimentData :=
  mkExperimentData (T e2) (cA_start e2)
    (concat (map times (e2 :: more))) (concat (map cA (e2 :: more))).

(** An experiment at the same times whose concentrations are those the
    model predicts for the given parameters. *)
Definition synthetic (logA E_a dH dS : R) (e : ExperimentData)
  : ExperimentData :=
  mkExperimentData (T e) (cA_start e) (times e)
    (np_func (times e) (cA_start e) (T e) logA E_a dH dS).

(** An experiment with every concentration multiplied by [a] (another
    unit of concentration). *)
Definition rescaled (a : R) (e : ExperimentData) : ExperimentData :=
  mkExperimentData (T e) (a * cA_start e) (times e) (map (Rmult a) (cA e)).

Definition py_map {A B : Type} (f : A -> B) (r : py A) : py B :=
  match r with
  | Ok a => Ok (f a)
  | Raise e => Raise e
  end.

(** What cell 9 asks of a parameter vector: the residuals of the three
    experiments for its first four entries. *)
Definition notebook_residuals (parameters : list R) : py (list R) :=
  match parameters with
  | logA :: E_a :: dH :: dS :: _ =>
      Ok (residuals_spec logA E_a dH dS Data.experiments)
  | _ => Raise IndexError
  end.

End Variants.

(** ** The loop of cell 10, entry by entry *)

Module Loop.
Import Py Report.

(** What one turn of the loop appends for parameter [i]. *)
Definition error_entry (cov : option matrix) (i : nat) : R :=
  match cov_entry cov i with
  | Ok c => sqrt (Rabs c)
  | Raise _ => 0.00
  end.

End Loop.

(** ** Properties of the concentration model *)

Module ModelFacts.
Import Model.

Lemma K_code_pos T dH dS : 0 < K_code T dH dS.
Proof. apply exp_pos. Qed.

Lemma kf_pos T logA E_a : 0 < kf T logA E_a.
Proof.
  unfold kf, Rpower. apply Rmult_lt_0_compat; apply exp_pos.
Qed.

Lemma k_total_pos T logA E_a dH dS : 0 < k_total T logA E_a dH dS.
Proof.
  unfold k_total.
  apply Rmult_lt_0_compat; [apply kf_pos|].
  pose proof (K_code_pos T dH dS) as HK.
  assert (0 < 1 / K_code T dH dS) by (apply Rdiv_lt_0_compat; lra).
  lra.
Qed.

(** [func] is the relaxation from [C_0] to [C_A_eq] at rate [k_total]. *)
Lemma func_relaxation_form t C_0 T logA E_a dH dS :
  func t C_0 T logA E_a dH dS =
  C_A_eq C_0 T dH dS
  + (C_0 - C_A_eq C_0 T dH dS) * exp (- k_total T logA E_a dH dS * t).
Proof.
  unfold func, C_A_eq, k_total, kf, K_code, R_gas.
  cbv zeta. do 3 f_equal. ring.
Qed.

Lemma C_A_eq_bounds C_0 T dH dS :
  0 < C_0 -> 0 < C_A_eq C_0 T dH dS < C_0.
Proof.
  intros HC. unfold C_A_eq.
  pose proof (K_code_pos T dH dS) as HK.
  split.
  - apply Rdiv_lt_0_compat; lra.
  - apply Rmult_lt_reg_r with (K_code T dH dS + 1); [lra|].
    unfold Rdiv. rewrite Rmult_assoc, Rinv_l by lra. nra.
Qed.

Lemma exp_decay_le_1 k t : 0 <= k * t -> 0 < exp (- k * t) <= 1.
Proof.
  intros H. split; [apply exp_pos|].
  destruct (Req_dec (k * t) 0) as [E|E].
  - replace (- k * t) with 0 by lra. rewrite exp_0. lra.
  - left. rewrite <- exp_0. apply exp_increasing. lra.
Qed.

Lemma exp_decay_bound y : 0 <= y -> exp (- y) <= / (1 + y).
Proof.
  intros Hy. rewrite exp_Ropp.
  apply Rinv_le_contravar; [lra|]. apply exp_ineq1_le.
Qed.

(** At [t = 1], [C_0 = 1], [T = 1], [logA = 0], [E_a = 0], [dH = 8.314],
    [dS = 0] the exponent [(dH - T*dS)/(R*T)] is [1]: the code relaxes to
    [1/(e+1)], the reference to [e/(e+1)]. *)
Lemma func_at_unit_point :
  func 1 1 1 0 0 8.314 0 =
  1 / (exp 1 + 1) + (1 - 1 / (exp 1 + 1)) * exp (- (1 + / exp 1)).
Proof.
  unfold func. cbv zeta.
  replace ((8.314 - 1 * 0) / (8.314 * 1)) with 1 by lra.
  replace (- 0 / (8.314 * 1)) with 0 by lra.
  rewrite exp_0, Rpower_O by lra.
  do 3 f_equal. lra.
Qed.

Lemma predict_reference_at_unit_point :
  predict_reference 1 1 1 0 0 8.314 0 =
  1 / (/ exp 1 + 1) + (1 - 1 / (/ exp 1 + 1)) * exp (- (1 + exp 1)).
Proof.
  unfold predict_reference, Kc_reference, R_gas. cbv zeta.
  replace (- (8.314 - 1 * 0) / (8.314 * 1)) with (- (1)) by lra.
  replace (- 0 / (8.314 * 1)) with 0 by lra.
  rewrite exp_0, Rpower_O, (exp_Ropp 1) by lra.
  pose proof (exp_pos 1) as He.
  replace (- (1 * 1 * (1 + 1 / / exp 1)) * 1) with (- (1 + exp 1))
    by (field; lra).
  reflexivity.
Qed.

Lemma exp_1_gt_2 : 2 < exp 1.
Proof. pose proof (exp_ineq1 1). lra. Qed.

(** C1 (counterexample): with the reference sign of the equilibrium
    constant, [Kc = exp(-(dH - T*dS)/(R*T))], the reference definition and
    [func] differ at [t = 1], [C_0 = 1], [T = 1], [logA = 0], [E_a = 0],
    [dH = 8.314], [dS = 0]: [func] stays below [2/(e+1)], the reference
    above [e/(e+1)]. *)
Lemma C1_reference_sign_differs :
  func 1 1 1 0 0 8.314 0 <> predict_reference 1 1 1 0 0 8.314 0.
Proof.
  rewrite func_at_unit_point, predict_reference_at_unit_point.
  pose proof exp_1_gt_2 as He.
  set (e := exp 1) in *.
  assert (Hie : 0 < / e) by (apply Rinv_0_lt_compat; lra).
  assert (Ha : exp (- (1 + / e)) < / e).
  { replace (/ e) with (exp (- 1)) at 2 by (unfold e; apply exp_Ropp).
    apply exp_increasing. lra. }
  pose proof (exp_pos (- (1 + / e))) as Ha0.
  pose proof (exp_pos (- (1 + e))) as Hb0.
  set (a := exp (- (1 + / e))) in *.
  set (b := exp (- (1 + e))) in *.
  assert (Hl : 1 / (e + 1) + (1 - 1 / (e + 1)) * a < 2 / (e + 1)).
  { replace (1 / (e + 1) + (1 - 1 / (e + 1)) * a)
      with ((1 + e * a) / (e + 1)) by (field; lra).
    unfold Rdiv. apply Rmult_lt_compat_r; [apply Rinv_0_lt_compat; lra|].
    assert (e * a < e * / e) by (apply Rmult_lt_compat_l; lra).
    rewrite Rinv_r in H by lra. lra. }
  assert (Hr : e / (e + 1) < 1 / (/ e + 1) + (1 - 1 / (/ e + 1)) * b).
  { replace (1 / (/ e + 1) + (1 - 1 / (/ e + 1)) * b)
      with (e / (e + 1) + b / (e + 1)) by (field; lra).
    assert (0 < b / (e + 1)) by (apply Rdiv_lt_0_compat; lra).
    lra. }
  assert (Hm : 2 / (e + 1) < e / (e + 1)).
  { unfold Rdiv. apply Rmult_lt_compat_r; [apply Rinv_0_lt_compat; lra|lra]. }
  lra.
Qed.

(** C1 (amended): for every [t >= 0], [C_0 > 0], [T > 0] and parameter
    tuple, [func] equals [C_A_eq + (C_0 - C_A_eq) * exp(-k_total * t)] with
    [R = 8.314], [K = exp((dH - T*dS)/(R*T))] (the sign the notebook
    derives from [Delta G = R T ln K]), [C_A_eq = C_0/(K + 1)],
    [kf = 10^logA * exp(-E_a/(R*T))] and [k_total = kf * (1 + 1/K)]. *)
Theorem C1_func_closed_form (t C_0 T logA E_a dH dS : R) :
  0 <= t -> 0 < C_0 -> 0 < T ->
  let K := exp ((dH - T * dS) / (8.314 * T)) in
  let Ceq := C_0 / (K + 1) in
  let k_f := Rpower 10 logA * exp (- E_a / (8.314 * T)) in
  let k := k_f * (1 + 1 / K) in
  func t C_0 T logA E_a dH dS = Ceq + (C_0 - Ceq) * exp (- k * t).
Proof.
  intros _ _ _. cbv zeta. rewrite func_relaxation_form.
  unfold C_A_eq, k_total, kf, K_code, R_gas. reflexivity.
Qed.

(** C1 at the first observation of the first experiment and the starting
    point of the solver. *)
Lemma C1_func_closed_form_witness :
  let K := exp ((-10e3 - 298.15 * -50) / (8.314 * 298.15)) in
  let Ceq := 10 / (K + 1) in
  let k_f := Rpower 10 6 * exp (- (45e3) / (8.314 * 298.15)) in
  let k := k_f * (1 + 1 / K) in
  func 10 10 298.15 6 45e3 (-10e3) (-50) = Ceq + (10 - Ceq) * exp (- k * 10).
Proof.
  apply (C1_func_closed_form 10 10 298.15 6 45e3 (-10e3) (-50)); lra.
Defined.

Lemma func_at_unit_point_upper : func 1 1 1 0 0 8.314 0 < 2 / (exp 1 + 1).
Proof.
  rewrite func_at_unit_point.
  pose proof exp_1_gt_2 as He.
  set (e := exp 1) in *.
  assert (Hie : 0 < / e) by (apply Rinv_0_lt_compat; lra).
  assert (Ha : exp (- (1 + / e)) < / e).
  { replace (/ e) with (exp (- 1)) at 2 by (unfold e; apply exp_Ropp).
    apply exp_increasing. lra. }
  pose proof (exp_pos (- (1 + / e))) as Ha0.
  set (a := exp (- (1 + / e))) in *.
  replace (1 / (e + 1) + (1 - 1 / (e + 1)) * a)
    with ((1 + e * a) / (e + 1)) by (field; lra).
  unfold Rdiv. apply Rmult_lt_compat_r; [apply Rinv_0_lt_compat; lra|].
  assert (e * a < e * / e) by (apply Rmult_lt_compat_l; lra).
  rewrite Rinv_r in H by lra. lra.
Qed.

Lemma C_A_eq_reference_at_unit_point :
  C_A_eq_reference 1 1 8.314 0 = exp 1 / (exp 1 + 1).
Proof.
  unfold C_A_eq_reference, Kc_reference, R_gas.
  replace (- (8.314 - 1 * 0) / (8.314 * 1)) with (- (1)) by lra.
  rewrite (exp_Ropp 1). pose proof (exp_pos 1). field. lra.
Qed.

(** C2 (counterexample): read with the equilibrium concentration of the
    specification, [C_A_eq = C0/(Kc + 1)], [Kc = exp(-(dH - T*dS)/(R*T))],
    the claim fails at the valid input [t = 1], [C_0 = 1], [T = 1],
    [logA = 0], [E_a = 0], [dH = 8.314], [dS = 0], where [k_total > 0]:
    the value of [func] is below that concentration, not between it and
    [C_0]. *)
Lemma C2_below_reference_equilibrium :
  0 < k_total 1 0 0 8.314 0
  /\ func 1 1 1 0 0 8.314 0 < C_A_eq_reference 1 1 8.314 0
  /\ C_A_eq_reference 1 1 8.314 0 < 1.
Proof.
  split; [apply k_total_pos|].
  rewrite C_A_eq_reference_at_unit_point.
  pose proof func_at_unit_point_upper as Hf.
  pose proof exp_1_gt_2 as He.
  set (e := exp 1) in *.
  assert (Hm : 2 / (e + 1) < e / (e + 1)).
  { unfold Rdiv. apply Rmult_lt_compat_r; [apply Rinv_0_lt_compat; lra|lra]. }
  split; [lra|].
  apply Rmult_lt_reg_r with (e + 1); [lra|].
  unfold Rdiv. rewrite Rmult_assoc, Rinv_l by lra. lra.
Qed.

(** C2 (amended): for [t >= 0], [C_0 > 0] and [T > 0] the relaxation rate
    [k_total] is positive, and the value of [func], computed over the real
    numbers, lies between [C_0] and the equilibrium concentration of the
    code, [C_0/(K + 1)] with [K = exp((dH - T*dS)/(R*T))]; it is [C_0] at
    [t = 0], it never increases with [t], and it converges to that
    equilibrium concentration as [t] grows. *)
Theorem C2_func_monotone_relaxation (t C_0 T logA E_a dH dS : R) :
  0 <= t -> 0 < C_0 -> 0 < T ->
  let f := fun s => func s C_0 T logA E_a dH dS in
  let Ceq := C_0 / (exp ((dH - T * dS) / (8.314 * T)) + 1) in
  0 < k_total T logA E_a dH dS
  /\ Ceq <= f t <= C_0
  /\ f 0 = C_0
  /\ (forall t1 t2, 0 <= t1 -> t1 <= t2 -> f t2 <= f t1)
  /\ (forall eps, 0 < eps ->
        exists t0, 0 <= t0 /\ forall s, t0 <= s -> Rabs (f s - Ceq) < eps).
Proof.
  intros Ht HC HT f Ceq.
  pose proof (k_total_pos T logA E_a dH dS) as Hk.
  change Ceq with (C_A_eq C_0 T dH dS). clear Ceq.
  set (Ceq := C_A_eq C_0 T dH dS).
  pose proof (C_A_eq_bounds C_0 T dH dS HC) as [Hx0 Hx1].
  fold Ceq in Hx0, Hx1.
  set (k := k_total T logA E_a dH dS) in *.
  assert (Hf : forall s, f s = Ceq + (C_0 - Ceq) * exp (- k * s)).
  { intros s. apply func_relaxation_form. }
  assert (Hbnd : forall s, 0 <= s -> Ceq <= f s <= C_0).
  { intros s Hs. rewrite Hf.
    destruct (exp_decay_le_1 k s) as [E0 E1]; [nra|]. nra. }
  split; [exact Hk|].
  split; [apply Hbnd, Ht|].
  split; [|split].
  - rewrite Hf. replace (- k * 0) with 0 by ring. rewrite exp_0. ring.
  - intros t1 t2 H1 H12. rewrite !Hf.
    assert (exp (- k * t2) <= exp (- k * t1)).
    { destruct (Req_dec t1 t2) as [->|Hne]; [lra|].
      left. apply exp_increasing. nra. }
    nra.
  - intros eps Heps.
    exists (C_0 / (eps * k)).
    assert (Hek : 0 < eps * k) by nra.
    split; [left; apply Rdiv_lt_0_compat; lra|].
    intros s Hs. rewrite Hf.
    replace (Ceq + (C_0 - Ceq) * exp (- k * s) - Ceq)
      with ((C_0 - Ceq) * exp (- k * s)) by ring.
    pose proof (exp_pos (- k * s)) as Hp.
    rewrite Rabs_right by nra.
    assert (Hks : C_0 / eps <= k * s).
    { apply Rle_trans with (k * (C_0 / (eps * k))); [|nra].
      right. field. split; lra. }
    assert (Hq : 0 < C_0 / eps) by (apply Rdiv_lt_0_compat; lra).
    assert (Hd : exp (- k * s) <= / (1 + k * s)).
    { replace (- k * s) with (- (k * s)) by ring.
      apply exp_decay_bound. lra. }
    assert (Hi : / (1 + k * s) < eps / C_0).
    { replace (eps / C_0) with (/ (C_0 / eps)) by (field; split; lra).
      apply Rinv_lt_contravar; nra. }
    apply Rle_lt_trans with (C_0 * / (1 + k * s)).
    + assert (0 < / (1 + k * s)) by (apply Rinv_0_lt_compat; lra). nra.
    + apply Rlt_le_trans with (C_0 * (eps / C_0)).
      * apply Rmult_lt_compat_l; lra.
      * right. field. lra.
Qed.

(** C2 at the first experiment of the notebook and its starting guess. *)
Lemma C2_func_monotone_relaxation_witness :
  let f := fun s => func s 10 298.15 6 45e3 (-10e3) (-50) in
  let Ceq := 10 / (exp ((-10e3 - 298.15 * -50) / (8.314 * 298.15)) + 1) in
  0 < k_total 298.15 6 45e3 (-10e3) (-50)
  /\ Ceq <= f 10 <= 10
  /\ f 0 = 10
  /\ (forall t1 t2, 0 <= t1 -> t1 <= t2 -> f t2 <= f t1)
  /\ (forall eps, 0 < eps ->
        exists t0, 0 <= t0 /\ forall s, t0 <= s -> Rabs (f s - Ceq) < eps).
Proof.
  apply (C2_func_monotone_relaxation 10 10 298.15 6 45e3 (-10e3) (-50)); lra.
Defined.

End ModelFacts.

(** ** Properties of the run time *)

Module PyFacts.
Import Py.

Lemma length_slice {A : Type} (s : nat) (e : option nat) (l : list A) :
  length (slice s e l) =
  (match e with Some e => Nat.min e (length l) | None => length l end - s)%nat.
Proof.
  unfold slice. rewrite length_skipn.
  destruct e; [rewrite length_firstn|]; reflexivity.
Qed.


(** Assigning a value of the slice's own length replaces the slice. *)
Lemma slice_assign_same (a : list R) (s : nat) (e : option nat) (v : list R) :
  length v = length (slice s e a) ->
  slice_assign a s e v = Ok (assigned a s v).
Proof.
  intros H. unfold slice_assign.
  rewrite <- H, Nat.eqb_refl. reflexivity.
Qed.

Lemma firstn_app_exact {A : Type} (p q : list A) (n : nat) :
  length p = n -> firstn n (p ++ q) = p.
Proof.
  intros <-. rewrite firstn_app, Nat.sub_diag, firstn_all2 by lia.
  simpl. apply app_nil_r.
Qed.

Lemma skipn_app_exact {A : Type} (p q : list A) (n : nat) :
  length p = n -> skipn n (p ++ q) = q.
Proof.
  intros <-. rewrite skipn_app, Nat.sub_diag, skipn_all2 by lia.
  reflexivity.
Qed.

(** The three slice assignments of [leastsqfunc], [[:n1]], [[n1:n2]] and
    [[n2:]] with [n1 <= n2], overwrite every entry of the buffer: whatever
    it held, it ends as the three values one after the other. *)
Lemma three_slices_fill (a v0 v1 v2 : list R) (n1 n2 : nat) :
  (n1 <= n2)%nat ->
  length v0 = length (slice 0 (Some n1) a) ->
  length v1 = length (slice n1 (Some n2) a) ->
  length v2 = length (slice n2 None a) ->
  exists a1 a2,
    slice_assign a 0 (Some n1) v0 = Ok a1
    /\ slice_assign a1 n1 (Some n2) v1 = Ok a2
    /\ slice_assign a2 n2 None v2 = Ok (v0 ++ v1 ++ v2).
Proof.
  intros Hn H0 H1 H2.
  rewrite length_slice in H0, H1, H2.
  set (N := length a) in *.
  set (a1 := v0 ++ skipn (length v0) a).
  assert (La1 : length a1 = N).
  { unfold a1. rewrite length_app, length_skipn. fold N. lia. }
  set (a2 := firstn n1 a1 ++ v1 ++ skipn (n1 + length v1) a1).
  assert (La2 : length a2 = N).
  { unfold a2. rewrite !length_app, length_firstn, length_skipn, La1. lia. }
  exists a1, a2. split; [|split].
  - rewrite slice_assign_same by (rewrite length_slice; fold N; lia).
    reflexivity.
  - rewrite slice_assign_same by (rewrite length_slice, La1; lia).
    reflexivity.
  - rewrite slice_assign_same by (rewrite length_slice, La2; lia).
    f_equal. unfold assigned.
    assert (Hv01 : firstn n2 a2 = v0 ++ v1 /\ skipn (n2 + length v2) a2 = []).
    { split.
      2:{ apply skipn_all2. lia. }
      destruct (Nat.le_gt_cases N n1) as [Hc|Hc].
      - (* the buffer ends within the first slice *)
        assert (length v1 = 0%nat) by lia.
        destruct v1; [|discriminate].
        rewrite app_nil_r.
        assert (E1 : a1 = v0).
        { unfold a1. rewrite skipn_all2 by (fold N; lia). apply app_nil_r. }
        unfold a2. rewrite E1. simpl.
        rewrite Nat.add_0_r, firstn_skipn.
        apply firstn_all2. lia.
      - assert (Hl0 : length v0 = n1) by lia.
        assert (F1 : firstn n1 a1 = v0).
        { unfold a1. apply firstn_app_exact, Hl0. }
        unfold a2. rewrite F1.
        rewrite app_assoc.
        rewrite firstn_app.
        rewrite (firstn_all2 (n:=n2)) by (rewrite length_app; lia).
        rewrite length_app.
        destruct (Nat.le_gt_cases N n2) as [Hd|Hd].
        + rewrite (skipn_all2 (n:=n1 + length v1)) by lia.
          rewrite firstn_nil, app_nil_r. reflexivity.
        + replace (n2 - (length v0 + length v1))%nat with 0%nat by lia.
          simpl. rewrite app_nil_r. reflexivity. }
    destruct Hv01 as [-> ->].
    rewrite app_nil_r, app_assoc. reflexivity.
Qed.

Lemma np_sub_same_length (a b : list R) :
  length a = length b ->
  np_sub a b = Ok (map (fun p => fst p - snd p) (combine a b)).
Proof.
  intros H. unfold np_sub. rewrite H, Nat.eqb_refl. reflexivity.
Qed.




Lemma set_nth_last {A : Type} (l : list A) (y x : A) :
  set_nth (l ++ [y]) (length l) x = l ++ [x].
Proof. induction l as [|z l IH]; simpl; [reflexivity|]. now rewrite IH. Qed.

(** Slices clip their bounds; a subtraction of arrays of different lengths,
    none of length one, is refused. *)
Example slice_clips : slice 2 (Some 10%nat) [1; 2; 3] = [3].
Proof. reflexivity. Qed.

Example slice_empty_beyond_end : slice 10 (Some 20%nat) [1; 2; 3] = [].
Proof. reflexivity. Qed.

Example slice_assign_middle :
  slice_assign [0; 0; 0; 0] 1 (Some 3%nat) [7; 8] = Ok [0; 7; 8; 0].
Proof. reflexivity. Qed.

Example slice_assign_wrong_length :
  slice_assign [0; 0; 0; 0] 1 (Some 3%nat) [7; 8; 9] = Raise ValueError.
Proof. reflexivity. Qed.

Example np_sub_shape_mismatch : np_sub [1; 2; 3] [1; 2] = Raise ValueError.
Proof. reflexivity. Qed.

End PyFacts.

(** ** Properties of the residual function *)

Module ResidualsFacts.
Import Model Py PyFacts Residuals Variants.
Local Open Scope py_scope.

Lemma bind_ok {S A B : Type} (c : St S A) (k : A -> St S B) (s s' : S) (a : A) :
  c s = (Ok a, s') -> bind c k s = k a s'.
Proof. intros H. unfold bind. rewrite H. reflexivity. Qed.


Lemma load_run (m : Mem) (l : loc) (a : list R) :
  nth_error (heap m) l = Some a -> load l m = (Ok a, m).
Proof. intros H. unfold load. rewrite H. reflexivity. Qed.

Lemma shape_run (m : Mem) (l : loc) (a : list R) :
  nth_error (heap m) l = Some a -> shape l m = (Ok (length a), m).
Proof.
  intros H. unfold shape. rewrite (bind_ok _ _ _ _ _ (load_run _ _ _ H)).
  reflexivity.
Qed.

Lemma load_slice_run (m : Mem) (l : loc) (a : list R) s e :
  nth_error (heap m) l = Some a ->
  load_slice l s e m = (Ok (slice s e a), m).
Proof.
  intros H. unfold load_slice.
  rewrite (bind_ok _ _ _ _ _ (load_run _ _ _ H)). reflexivity.
Qed.

Lemma store_slice_run (m : Mem) (l : loc) (a a' v : list R) s e :
  nth_error (heap m) l = Some a ->
  slice_assign a s e v = Ok a' ->
  store_slice l s e v m = (Ok tt, mkMem (set_nth (heap m) l a') (junk m)).
Proof.
  intros H Ha. unfold store_slice.
  rewrite (bind_ok _ _ _ _ _ (load_run _ _ _ H)).
  unfold lift, bind, store. rewrite Ha, H. reflexivity.
Qed.

Lemma nth_error_snoc_old {A : Type} (h : list A) (x y : A) (l : nat) :
  nth_error h l = Some y -> nth_error (h ++ [x]) l = Some y.
Proof.
  intros H. rewrite nth_error_app1; [exact H|].
  apply nth_error_Some. congruence.
Qed.

Lemma nth_error_snoc_new {A : Type} (h : list A) (x : A) :
  nth_error (h ++ [x]) (length h) = Some x.
Proof.
  rewrite nth_error_app2, Nat.sub_diag by lia. reflexivity.
Qed.

Lemma length_np_func ts c temp logA E_a dH dS :
  length (np_func ts c temp logA E_a dH dS) = length ts.
Proof. apply length_map. Qed.

(** What [leastsqfunc] computes, whatever [np.empty] returned: the
    observations minus the predictions of three fixed slices of the times,
    [[:n1]] with the first initial concentration and temperature,
    [[n1:n2]] with the second and [[n2:]] with the third.  The only change
    to the memory is the new array [C_A_fit]. *)
Lemma leastsqfunc_run (m : Mem) (logA E_a dH dS : R) (rest : list R)
  (arguments : Arguments) (tc obs : list R)
  (c0 c1 c2 : R) (cr : list R) (T0 T1 T2 : R) (Tr : list R) :
  nth_error (heap m) (arg_tcombined arguments) = Some tc ->
  nth_error (heap m) (arg_C_A arguments) = Some obs ->
  arg_C_0 arguments = c0 :: c1 :: c2 :: cr ->
  arg_T arguments = T0 :: T1 :: T2 :: Tr ->
  let fit :=
    np_func (slice 0 (Some n1) tc) c0 T0 logA E_a dH dS
    ++ np_func (slice n1 (Some n2) tc) c1 T1 logA E_a dH dS
    ++ np_func (slice n2 None tc) c2 T2 logA E_a dH dS in
  leastsqfunc (logA :: E_a :: dH :: dS :: rest) arguments m =
  (np_sub obs fit, mkMem (heap m ++ [fit]) (junk m)).
Proof.
  intros Htc Hobs HC HT fit.
  set (buf := map (junk m (length (heap m))) (seq 0 (length tc))).
  assert (Lbuf : length buf = length tc).
  { unfold buf. rewrite length_map, length_seq. reflexivity. }
  destruct (three_slices_fill buf
              (np_func (slice 0 (Some n1) tc) c0 T0 logA E_a dH dS)
              (np_func (slice n1 (Some n2) tc) c1 T1 logA E_a dH dS)
              (np_func (slice n2 None tc) c2 T2 logA E_a dH dS) n1 n2)
    as (b1 & b2 & S1 & S2 & S3).
  { unfold n1, n2. lia. }
  { rewrite length_np_func, !length_slice, Lbuf. reflexivity. }
  { rewrite length_np_func, !length_slice, Lbuf. reflexivity. }
  { rewrite length_np_func, !length_slice, Lbuf. reflexivity. }
  fold fit in S3.
  unfold leastsqfunc. rewrite HC, HT.
  unfold lift at 1 2 3 4. unfold index at 1 2 3 4. simpl nth_error.
  unfold bind at 1 2 3 4. cbv zeta.
  rewrite (bind_ok _ _ _ _ _ (shape_run _ _ _ Htc)).
  unfold np_empty at 1, np_array at 1. unfold bind at 1. fold buf.
  set (m0 := mkMem (heap m ++ [buf]) (junk m)).
  assert (Htc0 : nth_error (heap m0) (arg_tcombined arguments) = Some tc)
    by (apply nth_error_snoc_old, Htc).
  rewrite (bind_ok _ _ _ _ _ (load_slice_run m0 _ _ 0 (Some n1) Htc0)).
  unfold lift at 1 2, index at 1 2. simpl nth_error. unfold bind at 1 2.
  rewrite (bind_ok _ _ _ _ _
             (store_slice_run m0 (length (heap m)) buf b1 _ 0 (Some n1)
                (nth_error_snoc_new _ _) S1)).
  simpl heap. rewrite set_nth_last.
  set (m1 := mkMem (heap m ++ [b1]) (junk m)).
  assert (Htc1 : nth_error (heap m1) (arg_tcombined arguments) = Some tc)
    by (apply nth_error_snoc_old, Htc).
  rewrite (bind_ok _ _ _ _ _ (load_slice_run m1 _ _ n1 (Some n2) Htc1)).
  unfold lift at 1 2, index at 1 2. simpl nth_error. unfold bind at 1 2.
  rewrite (bind_ok _ _ _ _ _
             (store_slice_run m1 (length (heap m)) b1 b2 _ n1 (Some n2)
                (nth_error_snoc_new _ _) S2)).
  simpl heap. rewrite set_nth_last.
  set (m2 := mkMem (heap m ++ [b2]) (junk m)).
  assert (Htc2 : nth_error (heap m2) (arg_tcombined arguments) = Some tc)
    by (apply nth_error_snoc_old, Htc).
  rewrite (bind_ok _ _ _ _ _ (load_slice_run m2 _ _ n2 None Htc2)).
  unfold lift at 1 2, index at 1 2. simpl nth_error. unfold bind at 1 2.
  rewrite (bind_ok _ _ _ _ _
             (store_slice_run m2 (length (heap m)) b2 fit _ n2 None
                (nth_error_snoc_new _ _) S3)).
  simpl heap. rewrite set_nth_last.
  set (m3 := mkMem (heap m ++ [fit]) (junk m)).
  assert (Hobs3 : nth_error (heap m3) (arg_C_A arguments) = Some obs)
    by (apply nth_error_snoc_old, Hobs).
  rewrite (bind_ok _ _ _ _ _ (load_run m3 _ _ Hobs3)).
  rewrite (bind_ok _ _ _ _ _ (load_run m3 _ _ (nth_error_snoc_new _ _))).
  reflexivity.
Qed.

(** *** Fewer than three initial concentrations *)

Lemma bind_index_ok {S A B : Type} (l : list A) (i : nat) (a : A)
  (k : A -> St S B) (s : S) :
  nth_error l i = Some a -> bind (lift (index l i)) k s = k a s.
Proof. intros H. unfold bind, lift, index. rewrite H. reflexivity. Qed.

Lemma bind_index_raise {S A B : Type} (l : list A) (i : nat)
  (k : A -> St S B) (s : S) :
  nth_error l i = None ->
  bind (lift (index l i)) k s = (Raise IndexError, s).
Proof. intros H. unfold bind, lift, index. rewrite H. reflexivity. Qed.

Ltac run_step :=
  match goal with
  | |- context [bind (lift (index ?l ?i)) _ _] =>
      first [ erewrite (bind_index_ok l i) by reflexivity
            | rewrite (bind_index_raise l i) by reflexivity ]
  | H : nth_error (heap ?m) ?l = Some ?a
    |- context [bind (shape ?l) _ ?m] =>
      rewrite (bind_ok _ _ _ _ _ (shape_run m l a H))
  | H : nth_error (heap ?m) ?l = Some ?a
    |- context [bind (load_slice ?l ?s ?e) _ ?m] =>
      rewrite (bind_ok _ _ _ _ _ (load_slice_run m l a s e H))
  end.

(** With fewer than three initial concentrations [leastsqfunc] raises
    [IndexError], at [C_0[0]], [C_0[1]] or [C_0[2]] if not before at an
    index of [T]. *)
Lemma leastsqfunc_too_few (m : Mem) (logA E_a dH dS : R)
  (arguments : Arguments) (tc : list R) :
  nth_error (heap m) (arg_tcombined arguments) = Some tc ->
  (length (arg_C_0 arguments) < 3)%nat ->
  fst (leastsqfunc [logA; E_a; dH; dS] arguments m) = Raise IndexError.
Proof.
  intros Htc Hlen.
  set (buf := map (junk m (length (heap m))) (seq 0 (length tc))).
  assert (Lbuf : length buf = length tc).
  { unfold buf. rewrite length_map, length_seq. reflexivity. }
  set (m0 := mkMem (heap m ++ [buf]) (junk m)).
  assert (E0 : np_empty (length tc) m = (Ok (length (heap m)), m0))
    by reflexivity.
  unfold leastsqfunc. do 4 run_step. cbv zeta. run_step.
  rewrite (bind_ok _ _ _ _ _ E0).
  assert (Htc0 : nth_error (heap m0) (arg_tcombined arguments) = Some tc)
    by (apply nth_error_snoc_old, Htc).
  run_step.
  destruct (arg_C_0 arguments) as [|c0 cs]; [run_step; reflexivity|].
  run_step.
  destruct (arg_T arguments) as [|T0 Ts]; [run_step; reflexivity|].
  run_step.
  set (v0 := np_func (slice 0 (Some n1) tc) c0 T0 logA E_a dH dS).
  assert (S1 : slice_assign buf 0 (Some n1) v0
               = Ok (firstn 0 buf ++ v0 ++ skipn (0 + length v0) buf)).
  { apply slice_assign_same. unfold v0.
    rewrite length_np_func, !length_slice, Lbuf. reflexivity. }
  rewrite (bind_ok _ _ _ _ _
             (store_slice_run m0 (length (heap m)) buf _ _ 0 (Some n1)
                (nth_error_snoc_new _ _) S1)).
  simpl heap. rewrite set_nth_last.
  set (b1 := firstn 0 buf ++ v0 ++ skipn (0 + length v0) buf).
  assert (Lb1 : length b1 = length tc).
  { unfold b1, v0. simpl firstn. simpl app.
    rewrite length_app, length_skipn, length_np_func, length_slice, Lbuf.
    unfold n1. lia. }
  set (m1 := mkMem (heap m ++ [b1]) (junk m)).
  assert (Htc1 : nth_error (heap m1) (arg_tcombined arguments) = Some tc)
    by (apply nth_error_snoc_old, Htc).
  run_step.
  destruct cs as [|c1 cs]; [run_step; reflexivity|].
  run_step.
  destruct Ts as [|T1 Ts]; [run_step; reflexivity|].
  run_step.
  set (v1 := np_func (slice n1 (Some n2) tc) c1 T1 logA E_a dH dS).
  assert (S2 : slice_assign b1 n1 (Some n2) v1
               = Ok (firstn n1 b1 ++ v1 ++ skipn (n1 + length v1) b1)).
  { apply slice_assign_same. unfold v1.
    rewrite length_np_func, !length_slice, Lb1. reflexivity. }
  rewrite (bind_ok _ _ _ _ _
             (store_slice_run m1 (length (heap m)) b1 _ _ n1 (Some n2)
                (nth_error_snoc_new _ _) S2)).
  simpl heap. rewrite set_nth_last.
  set (b2 := firstn n1 b1 ++ v1 ++ skipn (n1 + length v1) b1).
  set (m2 := mkMem (heap m ++ [b2]) (junk m)).
  assert (Htc2 : nth_error (heap m2) (arg_tcombined arguments) = Some tc)
    by (apply nth_error_snoc_old, Htc).
  run_step.
  destruct cs as [|c2 cs]; [run_step; reflexivity|].
  simpl in Hlen. lia.
Qed.

(** *** Three experiments *)

Lemma arguments_of_run (es : list ExperimentData) (m : Mem) :
  arguments_of es m =
  (Ok (mkArguments (length (heap m)) (length (heap m ++ [concat (map times es)]))
         (map cA_start es) (map T es) (n1, (n1 + n2)%nat)),
   mkMem ((heap m ++ [concat (map times es)]) ++ [concat (map cA es)])
     (junk m)).
Proof. reflexivity. Qed.

Lemma combine_app {A B : Type} (a a' : list A) (b b' : list B) :
  length a = length b ->
  combine (a ++ a') (b ++ b') = combine a b ++ combine a' b'.
Proof.
  revert b. induction a as [|x a IH]; intros [|y b] H; simpl in *;
    try discriminate; [reflexivity|].
  f_equal. apply IH. congruence.
Qed.

Lemma sub_predictions (f : R -> R) (ts cs : list R) :
  map (fun p => fst p - snd p) (combine cs (map f ts)) =
  map (fun p => snd p - f (fst p)) (combine ts cs).
Proof.
  revert cs. induction ts as [|x ts IH]; intros [|c cs]; simpl;
    try reflexivity.
  f_equal. apply IH.
Qed.

Lemma length_experiment_residuals logA E_a dH dS (e : ExperimentData) :
  length (times e) = length (cA e) ->
  length (experiment_residuals logA E_a dH dS e) = length (cA e).
Proof.
  intros H. unfold experiment_residuals.
  rewrite length_map, length_combine, H. apply Nat.min_id.
Qed.

(** For three experiments of which the first has [n1] observations and the
    second [n2 - n1], the fixed slices of [leastsqfunc] are the experiments'
    slots: it returns the residual vector of the specification. *)
Lemma residuals_three (m : Mem) (logA E_a dH dS : R)
  (e0 e1 e2 : ExperimentData) :
  length (times e0) = n1 -> length (cA e0) = n1 ->
  length (times e1) = (n2 - n1)%nat -> length (cA e1) = (n2 - n1)%nat ->
  length (times e2) = length (cA e2) ->
  residuals [logA; E_a; dH; dS] [e0; e1; e2] m =
  Ok (residuals_spec logA E_a dH dS [e0; e1; e2]).
Proof.
  intros Ht0 Hc0 Ht1 Hc1 H2.
  unfold residuals.
  rewrite (bind_ok _ _ _ _ _ (arguments_of_run _ m)).
  set (tc := concat (map times [e0; e1; e2])).
  set (obs := concat (map cA [e0; e1; e2])).
  set (m' := mkMem ((heap m ++ [tc]) ++ [obs]) (junk m)).
  set (args := mkArguments _ _ _ _ _).
  assert (Htc : nth_error (heap m') (arg_tcombined args) = Some tc).
  { apply nth_error_snoc_old, nth_error_snoc_new. }
  assert (Hobs : nth_error (heap m') (arg_C_A args) = Some obs).
  { apply nth_error_snoc_new. }
  rewrite (leastsqfunc_run m' logA E_a dH dS [] args tc obs
             (cA_start e0) (cA_start e1) (cA_start e2) []
             (T e0) (T e1) (T e2) [] Htc Hobs eq_refl eq_refl).
  cbv zeta. simpl fst.
  assert (S0 : slice 0 (Some n1) tc = times e0).
  { unfold slice, tc. cbn [concat map].
    rewrite firstn_app_exact by exact Ht0. reflexivity. }
  assert (S1 : slice n1 (Some n2) tc = times e1).
  { unfold slice, tc. cbn [concat map].
    rewrite app_assoc, firstn_app_exact
      by (rewrite length_app, Ht0, Ht1; reflexivity).
    apply skipn_app_exact, Ht0. }
  assert (S2 : slice n2 None tc = times e2).
  { unfold slice, tc. cbn [concat map].
    rewrite app_nil_r, app_assoc.
    apply skipn_app_exact. rewrite length_app, Ht0, Ht1. reflexivity. }
  rewrite S0, S1, S2.
  rewrite np_sub_same_length.
  2:{ unfold obs. cbn [concat map].
      rewrite !length_app, !length_np_func. simpl length. lia. }
  f_equal. unfold obs, residuals_spec. cbn [concat map flat_map].
  rewrite !app_nil_r.
  unfold np_func.
  rewrite combine_app by (rewrite length_map; congruence).
  rewrite combine_app by (rewrite length_map; congruence).
  rewrite !map_app, !sub_predictions. reflexivity.
Qed.

(** Fewer than three experiments: [IndexError]. *)
Lemma residuals_too_few (m : Mem) (logA E_a dH dS : R)
  (es : list ExperimentData) :
  (length es < 3)%nat ->
  residuals [logA; E_a; dH; dS] es m = Raise IndexError.
Proof.
  intros H. unfold residuals.
  rewrite (bind_ok _ _ _ _ _ (arguments_of_run _ m)).
  eapply leastsqfunc_too_few.
  - apply nth_error_snoc_old, nth_error_snoc_new.
  - simpl. rewrite length_map. exact H.
Qed.

(** *** Every invocation: result and effect on the memory *)











(** *** The value of [leastsqfunc] *)

Lemma length_predictions logA E_a dH dS tc c0 T0 c1 T1 c2 T2 :
  length (predictions logA E_a dH dS tc c0 T0 c1 T1 c2 T2) = length tc.
Proof.
  unfold predictions.
  rewrite !length_app, !length_np_func, !length_slice. unfold n1, n2. lia.
Qed.

(** With four parameters, valid arrays and three initial concentrations
    and temperatures, [leastsqfunc] subtracts its predictions from the
    observations. *)
Lemma leastsqfunc_value (m : Mem) (logA E_a dH dS : R) (rest : list R)
  (arguments : Arguments) (tc obs : list R)
  (c0 c1 c2 : R) (cr : list R) (T0 T1 T2 : R) (Tr : list R) :
  nth_error (heap m) (arg_tcombined arguments) = Some tc ->
  nth_error (heap m) (arg_C_A arguments) = Some obs ->
  arg_C_0 arguments = c0 :: c1 :: c2 :: cr ->
  arg_T arguments = T0 :: T1 :: T2 :: Tr ->
  fst (leastsqfunc (logA :: E_a :: dH :: dS :: rest) arguments m)
  = np_sub obs (predictions logA E_a dH dS tc c0 T0 c1 T1 c2 T2).
Proof.
  intros Htc Hobs HC HT.
  rewrite (leastsqfunc_run m logA E_a dH dS rest arguments tc obs
             c0 c1 c2 cr T0 T1 T2 Tr Htc Hobs HC HT).
  reflexivity.
Qed.

(** The same through [residuals], for any sequence of at least three
    experiments. *)
Lemma residuals_value (m : Mem) (logA E_a dH dS : R)
  (e0 e1 e2 : ExperimentData) (more : list ExperimentData) :
  let es := e0 :: e1 :: e2 :: more in
  residuals [logA; E_a; dH; dS] es m
  = np_sub (concat (map cA es))
      (predictions logA E_a dH dS (concat (map times es))
         (cA_start e0) (T e0) (cA_start e1) (T e1) (cA_start e2) (T e2)).
Proof.
  intros es. unfold residuals.
  rewrite (bind_ok _ _ _ _ _ (arguments_of_run _ m)).
  apply leastsqfunc_value
    with (cr := map cA_start more) (Tr := map T more).
  - apply nth_error_snoc_old, nth_error_snoc_new.
  - apply nth_error_snoc_new.
  - reflexivity.
  - reflexivity.
Qed.

Lemma leastsqfunc_needs_four (parameters : list R)
  (arguments : Arguments) (m : Mem) :
  (length parameters < 4)%nat ->
  leastsqfunc parameters arguments m = (Raise IndexError, m).
Proof.
  intros H. unfold leastsqfunc.
  destruct parameters as [|a [|b [|c [|d rest]]]];
    try (simpl in H; lia);
    repeat first [ erewrite (bind_index_ok _ _) by reflexivity
                 | rewrite (bind_index_raise _ _) by reflexivity ];
    reflexivity.
Qed.

(** *** Residual vectors, fixed slices and determinism *)

Lemma nth_error_experiment_residuals logA E_a dH dS (e : ExperimentData)
  (i : nat) (t c : R) :
  nth_error (times e) i = Some t ->
  nth_error (cA e) i = Some c ->
  nth_error (experiment_residuals logA E_a dH dS e) i =
  Some (c - func t (cA_start e) (T e) logA E_a dH dS).
Proof.
  unfold experiment_residuals.
  generalize (times e) (cA e). intros ts.
  revert i. induction ts as [|x ts IH]; intros [|i] [|y cs] Ht Hc;
    simpl in *; try discriminate.
  - injection Ht as ->. injection Hc as ->. reflexivity.
  - apply IH; assumption.
Qed.

Lemma length_residuals_spec logA E_a dH dS (es : list ExperimentData) :
  Forall (fun e => length (times e) = length (cA e)) es ->
  length (residuals_spec logA E_a dH dS es) = observation_count es.
Proof.
  intros H. unfold residuals_spec, observation_count.
  rewrite length_flat_map. f_equal.
  induction H as [|e es He _ IH]; simpl; [reflexivity|].
  rewrite length_experiment_residuals by exact He. now rewrite IH.
Qed.

(** The arrays and tuples typed into cell 9 are the three experiments of
    cell 6, flattened. *)
Lemma cell9_arrays_are_the_experiments :
  concat (map times Data.experiments) = Data.tcombined
  /\ concat (map cA Data.experiments) = Data.C_A
  /\ map cA_start Data.experiments = Data.C_0_tuple
  /\ map T Data.experiments = Data.T_tuple.
Proof.
  split; [reflexivity|split; [|split; [|reflexivity]]].
  - unfold Data.C_A. simpl. repeat (f_equal; try lra).
  - unfold Data.C_0_tuple. simpl. repeat (f_equal; try lra).
Qed.

(** C3 (counterexample): on the sequence made of the first experiment of
    the notebook alone, [leastsqfunc] raises [IndexError] (at [C_0[1]])
    where the specification promises the ten residuals of that
    experiment. *)
Lemma C3_single_experiment_raises :
  residuals Data.parameters_0 [Data.experiment_0] Data.fresh_memory
  = Raise IndexError
  /\ residuals Data.parameters_0 [Data.experiment_0] Data.fresh_memory
     <> Ok (residuals_spec 6 45e3 (-10e3) (-50) [Data.experiment_0]).
Proof.
  assert (E : residuals Data.parameters_0 [Data.experiment_0]
                Data.fresh_memory = Raise IndexError)
    by (apply residuals_too_few; simpl; lia).
  split; [exact E|]. rewrite E. discriminate.
Qed.

(** C3 (amended): for every parameter vector and every sequence of three
    experiments of which the first two have ten observations each,
    [leastsqfunc] returns a vector whose length is the total number of
    observations and which is, experiment after experiment in the order
    given, the observed concentration minus the prediction of [func] at the
    matching time, in the order of the observations. *)
Theorem C3_residuals_three_experiments (m : Mem) (logA E_a dH dS : R)
  (e0 e1 e2 : ExperimentData) :
  length (times e0) = 10%nat -> length (cA e0) = 10%nat ->
  length (times e1) = 10%nat -> length (cA e1) = 10%nat ->
  length (times e2) = length (cA e2) ->
  let es := [e0; e1; e2] in
  let res := experiment_residuals logA E_a dH dS in
  exists r : list R,
    residuals [logA; E_a; dH; dS] es m = Ok r
    /\ length r = observation_count es
    /\ r = res e0 ++ res e1 ++ res e2
    /\ (forall e i t c,
          In e es ->
          nth_error (times e) i = Some t ->
          nth_error (cA e) i = Some c ->
          nth_error (res e) i =
          Some (c - func t (cA_start e) (T e) logA E_a dH dS)).
Proof.
  intros Ht0 Hc0 Ht1 Hc1 H2 es res.
  exists (residuals_spec logA E_a dH dS es).
  split; [|split; [|split]].
  - apply residuals_three; assumption.
  - apply length_residuals_spec.
    repeat constructor; congruence.
  - unfold residuals_spec, es. simpl. rewrite app_nil_r. reflexivity.
  - intros e i t c _. apply nth_error_experiment_residuals.
Qed.

(** C3 on the three experiments of the notebook and the starting point of
    the solver. *)
Lemma C3_residuals_three_experiments_witness :
  exists r : list R,
    residuals [6; 45e3; -10e3; -50] Data.experiments Data.fresh_memory = Ok r
    /\ length r = observation_count Data.experiments
    /\ r = experiment_residuals 6 45e3 (-10e3) (-50) Data.experiment_0
           ++ experiment_residuals 6 45e3 (-10e3) (-50) Data.experiment_1
           ++ experiment_residuals 6 45e3 (-10e3) (-50) Data.experiment_2
    /\ (forall e i t c,
          In e Data.experiments ->
          nth_error (times e) i = Some t ->
          nth_error (cA e) i = Some c ->
          nth_error (experiment_residuals 6 45e3 (-10e3) (-50) e) i =
          Some (c - func t (cA_start e) (T e) 6 45e3 (-10e3) (-50))).
Proof.
  apply (C3_residuals_three_experiments Data.fresh_memory 6 45e3 (-10e3) (-50)
           Data.experiment_0 Data.experiment_1 Data.experiment_2);
    reflexivity.
Defined.

(** C9 (counterexample): the residuals are also correct outside three
    experiments of ten observations each, here with a third experiment of
    one observation. *)
Lemma C9_correct_with_short_third :
  residuals Data.parameters_0 Data.short_third Data.fresh_memory
  = Ok (residuals_spec 6 45e3 (-10e3) (-50) Data.short_third)
  /\ ~ Forall (fun e => length (cA e) = 10%nat) Data.short_third.
Proof.
  split.
  - apply residuals_three; reflexivity.
  - intros H. inversion H as [|? ? _ H1]; subst.
    inversion H1 as [|? ? _ H2]; subst.
    inversion H2 as [|? ? H3 _]; subst.
    discriminate H3.
Qed.

(** C9 (amended): [leastsqfunc] predicts over three slices of the combined
    times fixed by the module-level constants, [[0,10)], [[10,20)] and
    [[20, end)], with the first, second and third initial concentration
    and temperature; the pair passed as fifth argument is never read; so
    it computes the residuals of the specification for every three
    experiments of which the first two have ten observations each, and it
    raises [IndexError] for fewer than three experiments. *)
Theorem C9_fixed_slices (m : Mem) (logA E_a dH dS : R)
  (arguments : Arguments) (tc obs : list R)
  (c0 c1 c2 : R) (cr : list R) (T0 T1 T2 : R) (Tr : list R) :
  nth_error (heap m) (arg_tcombined arguments) = Some tc ->
  nth_error (heap m) (arg_C_A arguments) = Some obs ->
  arg_C_0 arguments = c0 :: c1 :: c2 :: cr ->
  arg_T arguments = T0 :: T1 :: T2 :: Tr ->
  fst (leastsqfunc [logA; E_a; dH; dS] arguments m) =
    np_sub obs
      (np_func (slice 0 (Some 10%nat) tc) c0 T0 logA E_a dH dS
       ++ np_func (slice 10 (Some 20%nat) tc) c1 T1 logA E_a dH dS
       ++ np_func (slice 20 None tc) c2 T2 logA E_a dH dS)
  /\ (forall bounds : nat * nat,
        leastsqfunc [logA; E_a; dH; dS]
          (mkArguments (arg_tcombined arguments) (arg_C_A arguments)
             (arg_C_0 arguments) (arg_T arguments) bounds) m
        = leastsqfunc [logA; E_a; dH; dS] arguments m)
  /\ (forall (e0 e1 e2 : ExperimentData) (m' : Mem),
        length (times e0) = 10%nat -> length (cA e0) = 10%nat ->
        length (times e1) = 10%nat -> length (cA e1) = 10%nat ->
        length (times e2) = length (cA e2) ->
        residuals [logA; E_a; dH; dS] [e0; e1; e2] m'
        = Ok (residuals_spec logA E_a dH dS [e0; e1; e2]))
  /\ (forall (es : list ExperimentData) (m' : Mem),
        (length es < 3)%nat ->
        residuals [logA; E_a; dH; dS] es m' = Raise IndexError).
Proof.
  intros Htc Hobs HC HT. split; [|split; [|split]].
  - rewrite (leastsqfunc_run m logA E_a dH dS [] arguments tc obs
               c0 c1 c2 cr T0 T1 T2 Tr Htc Hobs HC HT).
    reflexivity.
  - intros bounds. reflexivity.
  - intros e0 e1 e2 m' Ht0 Hc0 Ht1 Hc1 H2.
    apply residuals_three; assumption.
  - intros es m' Hes. apply residuals_too_few, Hes.
Qed.

(** C9 on the arrays and tuples of cell 9. *)
Lemma C9_fixed_slices_witness :
  let m := mkMem [Data.tcombined; Data.C_A] (fun _ _ => 0) in
  let arguments :=
    mkArguments 0%nat 1%nat Data.C_0_tuple Data.T_tuple (10%nat, 30%nat) in
  fst (leastsqfunc [6; 45e3; -10e3; -50] arguments m) =
    np_sub Data.C_A
      (np_func (slice 0 (Some 10%nat) Data.tcombined) 10 298.15
         6 45e3 (-10e3) (-50)
       ++ np_func (slice 10 (Some 20%nat) Data.tcombined) 10 308.15
            6 45e3 (-10e3) (-50)
       ++ np_func (slice 20 None Data.tcombined) 10 323.15
            6 45e3 (-10e3) (-50))
  /\ (forall bounds : nat * nat,
        leastsqfunc [6; 45e3; -10e3; -50]
          (mkArguments (arg_tcombined arguments) (arg_C_A arguments)
             (arg_C_0 arguments) (arg_T arguments) bounds) m
        = leastsqfunc [6; 45e3; -10e3; -50] arguments m)
  /\ (forall (e0 e1 e2 : ExperimentData) (m' : Mem),
        length (times e0) = 10%nat -> length (cA e0) = 10%nat ->
        length (times e1) = 10%nat -> length (cA e1) = 10%nat ->
        length (times e2) = length (cA e2) ->
        residuals [6; 45e3; -10e3; -50] [e0; e1; e2] m'
        = Ok (residuals_spec 6 45e3 (-10e3) (-50) [e0; e1; e2]))
  /\ (forall (es : list ExperimentData) (m' : Mem),
        (length es < 3)%nat ->
        residuals [6; 45e3; -10e3; -50] es m' = Raise IndexError).
Proof.
  intros m arguments.
  apply (C9_fixed_slices m 6 45e3 (-10e3) (-50) arguments
           Data.tcombined Data.C_A 10 10 10 [] 298.15 308.15 323.15 []);
    reflexivity.
Defined.


End ResidualsFacts.

(** ** Properties of the post-processing *)

Module ReportFacts.
Import Py Report.

Lemma round_half_even_near (x : R) (z : Z) :
  IZR z - 1 / 2 < x < IZR z + 1 / 2 -> round_half_even x = z.
Proof.
  intros [Hlo Hhi]. unfold round_half_even.
  destruct (Rle_dec (IZR z) x) as [Hge|Hlt].
  - assert (E : z = Int_part x) by (apply Int_part_spec; lra).
    rewrite <- E.
    destruct (Rlt_dec (x - IZR z) (1 / 2)); [reflexivity|lra].
  - assert (E : (z - 1)%Z = Int_part x).
    { apply Int_part_spec. rewrite minus_IZR. lra. }
    rewrite <- E. rewrite minus_IZR.
    destruct (Rlt_dec (x - (IZR z - 1)) (1 / 2)); [lra|].
    destruct (Rlt_dec (1 / 2) (x - (IZR z - 1))); [lia|lra].
Qed.

Lemma np_sqrt_nonneg (x : R) : 0 <= x -> np_sqrt x = Num (sqrt x).
Proof.
  intros H. unfold np_sqrt. destruct (Rle_dec 0 x); [reflexivity|lra].
Qed.

Lemma np_sqrt_negative (x : R) : x < 0 -> np_sqrt x = NaN.
Proof.
  intros H. unfold np_sqrt. destruct (Rle_dec 0 x); [lra|reflexivity].
Qed.

(** Ties go to the even neighbour. *)
Example round_half_even_2_5 : round_half_even 2.5 = 2%Z.
Proof.
  unfold round_half_even.
  assert (E : 2%Z = Int_part 2.5) by (apply Int_part_spec; lra).
  rewrite <- E.
  destruct (Rlt_dec (2.5 - 2) (1 / 2)); [lra|].
  destruct (Rlt_dec (1 / 2) (2.5 - 2)); [lra|reflexivity].
Qed.

Example round_half_even_3_5 : round_half_even 3.5 = 4%Z.
Proof.
  unfold round_half_even.
  assert (E : 3%Z = Int_part 3.5) by (apply Int_part_spec; lra).
  rewrite <- E.
  destruct (Rlt_dec (3.5 - 3) (1 / 2)); [lra|].
  destruct (Rlt_dec (1 / 2) (3.5 - 3)); [lra|reflexivity].
Qed.

(** The square root lies between two bounds whose squares enclose the
    argument. *)
Lemma sqrt_between (x lo hi : R) :
  0 <= lo -> lo * lo < x -> x < hi * hi -> 0 <= hi -> lo < sqrt x < hi.
Proof.
  intros Hlo H1 H2 Hhi. split.
  - rewrite <- (sqrt_square lo) by exact Hlo.
    apply sqrt_lt_1_alt. nra.
  - rewrite <- (sqrt_square hi) by exact Hhi.
    apply sqrt_lt_1_alt. nra.
Qed.

Lemma is_4x4_inv (rows : matrix) :
  is_4x4 rows ->
  exists a0 a1 a2 a3 b0 b1 b2 b3 c0 c1 c2 c3 d0 d1 d2 d3 : R,
    rows = [[a0; a1; a2; a3]; [b0; b1; b2; b3];
            [c0; c1; c2; c3]; [d0; d1; d2; d3]].
Proof.
  intros [Hl Hr].
  destruct rows as [|ra [|rb [|rc [|rd [|? ?]]]]]; try discriminate.
  inversion Hr as [|? ? Ha Hr1]; subst.
  inversion Hr1 as [|? ? Hb Hr2]; subst.
  inversion Hr2 as [|? ? Hc Hr3]; subst.
  inversion Hr3 as [|? ? Hd _]; subst.
  destruct ra as [|a0 [|a1 [|a2 [|a3 [|? ?]]]]]; try discriminate.
  destruct rb as [|b0 [|b1 [|b2 [|b3 [|? ?]]]]]; try discriminate.
  destruct rc as [|c0 [|c1 [|c2 [|c3 [|? ?]]]]]; try discriminate.
  destruct rd as [|d0 [|d1 [|d2 [|d3 [|? ?]]]]]; try discriminate.
  repeat eexists.
Qed.

Lemma error_loop_4 (r0 r1 r2 r3 : R) (cov : option matrix) :
  error_loop [r0; r1; r2; r3] cov =
  error_append cov (error_append cov (error_append cov
    (error_append cov [] 0) 1) 2) 3.
Proof. reflexivity. Qed.

Lemma diag_from_spec_covariance (SSR : R) (n_obs n_params : nat)
  (rows : matrix) (i : nat) :
  diag_from i (spec_covariance SSR n_obs n_params rows) =
  map (fun x => residual_variance SSR n_obs n_params * x) (diag_from i rows).
Proof.
  revert i. unfold spec_covariance.
  induction rows as [|r rows IH]; intros i; simpl; [reflexivity|].
  rewrite nth_error_map. destruct (nth_error r i); simpl; [|reflexivity].
  f_equal. apply IH.
Qed.

Lemma sqrt_4 : sqrt 4 = 2.
Proof. replace 4 with (2 * 2) by lra. apply sqrt_square. lra. Qed.

(** C5 (counterexample): on a 4x4 covariance whose first diagonal entry is
    [-4] the code returns values and raises nothing: [stderr] holds [nan]
    in the first place, the loop of cell 10 the root of the absolute
    value. *)
Lemma C5_negative_diagonal_returns :
  stderr_of (Some Recorded.negative_cov) = Ok [NaN; Num 1; Num 1; Num 1]
  /\ error_loop Data.parameters_0 (Some Recorded.negative_cov) = [2; 1; 1; 1].
Proof.
  split.
  - unfold stderr_of, Recorded.negative_cov. simpl.
    rewrite np_sqrt_negative by lra.
    rewrite np_sqrt_nonneg by lra. rewrite sqrt_1. reflexivity.
  - unfold Data.parameters_0. rewrite error_loop_4.
    unfold error_append, Recorded.negative_cov. simpl.
    replace (Rabs (-4)) with 4 by (rewrite Rabs_left; lra).
    rewrite Rabs_R1, sqrt_4, sqrt_1. reflexivity.
Qed.

(** C5 (amended): for every 4x4 covariance, [stderr] is the element-wise
    [np.sqrt] of the diagonal, in the order of the parameters, and the loop
    of cell 10 gives the roots of the absolute values; where a diagonal
    entry is non-negative both are its non-negative square root, and where
    it is negative [stderr] holds [nan] there.  Nothing is raised. *)
Theorem C5_stderr_is_sqrt_of_diagonal (rows : matrix) (r0 r1 r2 r3 : R) :
  is_4x4 rows ->
  exists d0 d1 d2 d3 : R,
    diag_from 0 rows = [d0; d1; d2; d3]
    /\ stderr_of (Some rows)
       = Ok [np_sqrt d0; np_sqrt d1; np_sqrt d2; np_sqrt d3]
    /\ error_loop [r0; r1; r2; r3] (Some rows)
       = [sqrt (Rabs d0); sqrt (Rabs d1); sqrt (Rabs d2); sqrt (Rabs d3)]
    /\ (forall d : R,
          (0 <= d ->
           np_sqrt d = Num (sqrt d) /\ 0 <= sqrt d
           /\ sqrt (Rabs d) = sqrt d)
          /\ (d < 0 -> np_sqrt d = NaN)).
Proof.
  intros H.
  destruct (is_4x4_inv rows H)
    as (a0 & a1 & a2 & a3 & b0 & b1 & b2 & b3
        & c0 & c1 & c2 & c3 & d0 & d1 & d2 & d3 & ->).
  exists a0, b1, c2, d3.
  split; [reflexivity|split; [reflexivity|split; [reflexivity|]]].
  intros d. split.
  - intros Hd. split; [apply np_sqrt_nonneg, Hd|].
    split; [apply sqrt_pos|]. rewrite Rabs_right by lra. reflexivity.
  - apply np_sqrt_negative.
Qed.


(** The standard errors the notebook printed are what the model computes
    from the covariance it printed. *)
(** C5 on the covariance printed by the notebook. *)
Lemma C5_stderr_is_sqrt_of_diagonal_witness :
  exists d0 d1 d2 d3 : R,
    diag_from 0 Recorded.cov = [d0; d1; d2; d3]
    /\ stderr_of (Some Recorded.cov)
       = Ok [np_sqrt d0; np_sqrt d1; np_sqrt d2; np_sqrt d3]
    /\ error_loop [6; 45e3; -10e3; -50] (Some Recorded.cov)
       = [sqrt (Rabs d0); sqrt (Rabs d1); sqrt (Rabs d2); sqrt (Rabs d3)]
    /\ (forall d : R,
          (0 <= d ->
           np_sqrt d = Num (sqrt d) /\ 0 <= sqrt d
           /\ sqrt (Rabs d) = sqrt d)
          /\ (d < 0 -> np_sqrt d = NaN)).
Proof.
  apply (C5_stderr_is_sqrt_of_diagonal Recorded.cov 6 45e3 (-10e3) (-50)).
  split; [reflexivity|repeat constructor].
Defined.

Lemma recorded_standard_errors :
  standard_errors_of (map np_sqrt (diag_from 0 Recorded.cov))
  = Ok Recorded.standard_errors.
Proof.
  unfold Recorded.cov. cbn [diag_from nth_error map].
  rewrite !np_sqrt_nonneg by lra.
  unfold standard_errors_of. cbn [index nth_error round np_div].
  unfold Recorded.standard_errors.
  assert (B0 := sqrt_between 1.70681232e+01 4 4.5
                  ltac:(lra) ltac:(lra) ltac:(lra) ltac:(lra)).
  assert (B1 := sqrt_between 5.78365117e+08 24000 24500
                  ltac:(lra) ltac:(lra) ltac:(lra) ltac:(lra)).
  assert (B2 := sqrt_between 7.90860543e+07 8500 9000
                  ltac:(lra) ltac:(lra) ltac:(lra) ltac:(lra)).
  assert (B3 := sqrt_between 7.99196786e+02 28 28.5
                  ltac:(lra) ltac:(lra) ltac:(lra) ltac:(lra)).
  rewrite (round_half_even_near _ 4) by (simpl; lra).
  rewrite (round_half_even_near _ 24) by (simpl; lra).
  rewrite (round_half_even_near _ 9) by (simpl; lra).
  rewrite (round_half_even_near _ 28) by (simpl; lra).
  reflexivity.
Qed.

End ReportFacts.

(** ** Properties of the notebook *)

Module NotebookFacts.
Import Model Py PyFacts Residuals ResidualsFacts Report Variants Notebook.
Local Open Scope py_scope.

Lemma keeps_bind {A B C : Type} (proj : Globals -> C) (c : N A)
  (k : A -> N B) :
  keeps proj c -> (forall a, keeps proj (k a)) -> keeps proj (bind c k).
Proof.
  intros Hc Hk g. unfold bind.
  specialize (Hc g). destruct (c g) as [[a|e] g'].
  - rewrite Hk. exact Hc.
  - exact Hc.
Qed.

Lemma keeps_ret {A C : Type} (proj : Globals -> C) (a : A) :
  keeps proj (ret a).
Proof. intros g. reflexivity. Qed.

Lemma keeps_lift {A C : Type} (proj : Globals -> C) (r : py A) :
  keeps proj (lift r).
Proof. intros g. reflexivity. Qed.

Lemma keeps_name {A C : Type} (proj : Globals -> C)
  (read : Globals -> option A) :
  keeps proj (name read).
Proof. intros g. unfold name. destruct (read g); reflexivity. Qed.

Lemma keeps_bound {C : Type} (proj : Globals -> C)
  (read : Globals -> bool) :
  keeps proj (bound read).
Proof. intros g. unfold bound. destruct (read g); reflexivity. Qed.

Lemma keeps_call {A C : Type} (proj : Globals -> C) (f : Globals -> py A) :
  keeps proj (fun g => (f g, g)).
Proof. intros g. reflexivity. Qed.

(** What assigns one global keeps the others. *)
Ltac keeps_assign :=
  let g := fresh "g" in
  intros g;
  first [ reflexivity
        | unfold in_mem;
          match goal with
          | |- context [let (_, _) := ?c in _] => destruct c; reflexivity
          end ].

Ltac keeps_steps :=
  repeat first
    [ apply keeps_ret
    | apply keeps_lift
    | apply keeps_name
    | apply keeps_bound
    | apply keeps_call
    | apply keeps_bind; [|intros ?]
    | progress cbv zeta
    | keeps_assign ].

Lemma keeps_experiments_error_turns cov range error :
  keeps g_experiments (error_turns cov range error).
Proof.
  revert error. induction range as [|i range IH]; intros error; simpl.
  - apply keeps_ret.
  - apply keeps_bind; [keeps_assign|intros _; apply IH].
Qed.

Lemma keeps_stderr_error_turns cov range error :
  keeps g_stderr (error_turns cov range error).
Proof.
  revert error. induction range as [|i range IH]; intros error; simpl.
  - apply keeps_ret.
  - apply keeps_bind; [keeps_assign|intros _; apply IH].
Qed.

Lemma keeps_experiments_cell7 : keeps g_experiments cell7.
Proof. unfold cell7. keeps_steps. Qed.

Lemma keeps_experiments_cell9 leastsq : keeps g_experiments (cell9 leastsq).
Proof. unfold cell9. keeps_steps. Qed.

Lemma keeps_experiments_cell10 : keeps g_experiments cell10.
Proof.
  unfold cell10. keeps_steps. apply keeps_experiments_error_turns.
Qed.

(** Cell 6 binds [experiments] to the three records; no other cell of the
    regression rebinds it. *)
Lemma run_cell_experiments leastsq (c : cell) (g : Globals) :
  g_experiments (snd (run_cell leastsq c g)) =
  match c with
  | Cell6 => Some Data.experiments
  | _ => g_experiments g
  end.
Proof.
  destruct c; simpl.
  - reflexivity.
  - apply keeps_experiments_cell7.
  - apply keeps_experiments_cell9.
  - apply keeps_experiments_cell10.
Qed.

Lemma run_app leastsq (cs1 cs2 : list cell) (g : Globals) :
  run leastsq (cs1 ++ cs2) g = run leastsq cs2 (run leastsq cs1 g).
Proof.
  revert g. induction cs1 as [|c cs1 IH]; intros g; simpl;
    [reflexivity|apply IH].
Qed.

Lemma run_keeps_experiments leastsq (cs : list cell) (g : Globals) :
  g_experiments g = Some Data.experiments ->
  g_experiments (run leastsq cs g) = Some Data.experiments.
Proof.
  revert g. induction cs as [|c cs IH]; intros g H; simpl; [exact H|].
  apply IH. rewrite run_cell_experiments. destruct c; auto.
Qed.

(** C8: the three [ExperimentData] records the program constructs have as
    many times as concentrations, and once cell 6 has bound them, whatever
    cells ran before and whatever cells run after, with whatever solver,
    [experiments] is still the list of these records: temperature, initial
    concentration, times and concentrations as constructed. *)
Theorem C8_experiments_well_formed_and_immutable
  (leastsq : (list R -> py (list R)) -> list R -> py (list R * option matrix))
  (before after : list cell) (m : Mem) :
  Forall (fun e => length (times e) = length (cA e)) Data.experiments
  /\ g_experiments (run leastsq (before ++ Cell6 :: after) (start m))
     = Some Data.experiments
  /\ (forall (c : cell) (g : Globals),
        g_experiments (snd (run_cell leastsq c g)) =
        match c with
        | Cell6 => Some Data.experiments
        | Cell7 | Cell9 | Cell10 => g_experiments g
        end).
Proof.
  split; [|split].
  - repeat constructor.
  - rewrite run_app. simpl. apply run_keeps_experiments. reflexivity.
  - intros c g. apply run_cell_experiments.
Qed.

(** *** Cells 9 and 10 *)

Lemma name_run {A : Type} (read : Globals -> option A) (g : Globals) (a : A) :
  read g = Some a -> name read g = (Ok a, g).
Proof. intros H. unfold name. rewrite H. reflexivity. Qed.

(** The residual function of cell 9, from the memory cell 9 has built, is
    the map from a parameter vector to the residuals of the three
    experiments of cell 6. *)
Lemma cell9_callback (h : list (list R)) (j : loc -> nat -> R)
  (bounds : nat * nat) :
  (fun p : list R =>
     fst (leastsqfunc p
            (mkArguments (length (h ++ [Data.t]))
               (length ((h ++ [Data.t]) ++ [Data.t ++ Data.t ++ Data.t]))
               Data.C_0_tuple Data.T_tuple bounds)
            (mkMem (((h ++ [Data.t]) ++ [Data.t ++ Data.t ++ Data.t])
                    ++ [Data.C_A]) j)))
  = notebook_residuals.
Proof.
  apply functional_extensionality. intros p.
  destruct (Nat.lt_ge_cases (length p) 4) as [Hs|Hl].
  - rewrite leastsqfunc_needs_four by exact Hs.
    destruct p as [|a [|b [|c [|d rest]]]]; try reflexivity.
    simpl in Hs. lia.
  - destruct p as [|a [|b [|c [|d rest]]]]; try (simpl in Hl; lia).
    destruct cell9_arrays_are_the_experiments as (Et & Ec & E0 & ET).
    unfold notebook_residuals, Data.experiments in *.
    rewrite <- (residuals_three Data.fresh_memory a b c d
                  Data.experiment_0 Data.experiment_1 Data.experiment_2)
      by reflexivity.
    rewrite residuals_value. cbv zeta.
    apply leastsqfunc_value with (cr := []) (Tr := []).
    + cbn [heap arg_tcombined].
      apply nth_error_snoc_old, nth_error_snoc_new.
    + cbn [heap arg_C_A]. rewrite Ec. apply nth_error_snoc_new.
    + cbn [arg_C_0]. rewrite <- E0. reflexivity.
    + cbn [arg_T]. rewrite <- ET. reflexivity.
Qed.

Ltac hnf_sides :=
  match goal with
  | |- ?L = ?R =>
      let L' := eval hnf in L in
      let R' := eval hnf in R in
      change (L' = R')
  end.

Ltac read_globals :=
  cbn [g_mem heap junk g_array g_experiments g_ParameterSet g_starting_guess
       g_optimized_parameters g_standard_errors g_tcombined g_C_A g_result
       g_cov g_stderr g_perr_leastsq].

Local Opaque nth_error.

(** Cell 9 up to the call of the solver: the function it hands to the
    solver is the residual function of the three experiments. *)
Lemma cell9_to_the_solver leastsq (g : Globals) :
  cell9 leastsq g = cell9 (fun _ x0 => leastsq notebook_residuals x0) g.
Proof.
  destruct g as [m ar ex ps sg op se tc ca res cov st pe].
  destruct m as [h j].
  hnf_sides. unfold in_mem, load. read_globals.
  rewrite !nth_error_snoc_new.
  destruct ar.
  - hnf_sides. read_globals.
    rewrite cell9_callback. reflexivity.
  - hnf_sides. reflexivity.
Qed.

Local Transparent nth_error.

(** Cell 9 when the solver returns a solution of at least four entries:
    the state it leaves. *)
Lemma cell9_run leastsq (h : list (list R)) (j : loc -> nat -> R)
  ex ps sg op se tc ca res cov st pe (result : list R)
  (cov_x : option matrix) :
  leastsq notebook_residuals Data.parameters_0 = Ok (result, cov_x) ->
  (4 <= length result)%nat ->
  cell9 leastsq (mkGlobals (mkMem h j) true ex ps sg op se tc ca res cov st pe)
  = (Ok tt,
     mkGlobals
       (mkMem (((h ++ [Data.t]) ++ [Data.tcombined]) ++ [Data.C_A]) j)
       true ex ps sg op se
       (Some (length (h ++ [Data.t])))
       (Some (length ((h ++ [Data.t]) ++ [Data.tcombined])))
       (Some result) (Some cov_x) st pe).
Proof.
  intros H L. rewrite cell9_to_the_solver.
  destruct result as [|a [|b [|c [|d r]]]]; try (simpl in L; lia).
  unfold cell9.
  cbv beta iota zeta delta
    [bind in_mem np_array load set_tcombined set_C_A set_fit name bound lift
     ret fst snd heap junk g_mem g_array g_experiments g_ParameterSet
     g_starting_guess g_optimized_parameters g_standard_errors g_tcombined
     g_C_A g_result g_cov g_stderr g_perr_leastsq].
  rewrite nth_error_snoc_new. cbv beta iota.
  rewrite H. reflexivity.
Qed.

(** The session from the start through cells 6 and 7. *)
Lemma after_cells_6_7 leastsq (m : Mem) :
  run leastsq [Cell6; Cell7] (start m)
  = mkGlobals m true (Some Data.experiments) true (Some starting_guess)
      (Some placeholder) (Some placeholder) None None None None None None.
Proof. reflexivity. Qed.

(** Cell 9 after cells 6 and 7, when the solver returns a solution of at
    least four entries. *)
Lemma after_cells_6_7_9 leastsq (m : Mem) (result : list R)
  (cov_x : option matrix) :
  leastsq notebook_residuals Data.parameters_0 = Ok (result, cov_x) ->
  (4 <= length result)%nat ->
  cell9 leastsq (run leastsq [Cell6; Cell7] (start m))
  = (Ok tt,
     mkGlobals
       (mkMem (((heap m ++ [Data.t]) ++ [Data.tcombined]) ++ [Data.C_A])
          (junk m))
       true (Some Data.experiments) true (Some starting_guess)
       (Some placeholder) (Some placeholder)
       (Some (length (heap m ++ [Data.t])))
       (Some (length ((heap m ++ [Data.t]) ++ [Data.tcombined])))
       (Some result) (Some cov_x) None None).
Proof.
  intros H L. rewrite after_cells_6_7. destruct m as [h j].
  cbn [heap junk]. apply cell9_run; assumption.
Qed.

Lemma run_cons leastsq (c : cell) (rest : list cell) (g : Globals) :
  run leastsq (c :: rest) g = run leastsq rest (snd (run_cell leastsq c g)).
Proof. reflexivity. Qed.

Lemma run_nil leastsq (g : Globals) : run leastsq [] g = g.
Proof. reflexivity. Qed.

Lemma run_6_7_9 leastsq (m : Mem) :
  run leastsq [Cell6; Cell7; Cell9] (start m)
  = snd (cell9 leastsq (run leastsq [Cell6; Cell7] (start m))).
Proof.
  rewrite !run_cons, !run_nil.
  change (run_cell leastsq Cell9) with (cell9 leastsq). reflexivity.
Qed.

Lemma run_6_7_9_10 leastsq (m : Mem) :
  run leastsq [Cell6; Cell7; Cell9; Cell10] (start m)
  = snd (cell10 (run leastsq [Cell6; Cell7; Cell9] (start m))).
Proof.
  rewrite !run_cons, !run_nil.
  change (run_cell leastsq Cell10) with cell10. reflexivity.
Qed.

Lemma notebook_residuals_length (p res : list R) :
  notebook_residuals p = Ok res ->
  (4 <= length p)%nat /\ length res = 30%nat.
Proof.
  unfold notebook_residuals.
  destruct p as [|a [|b [|c [|d r]]]]; try discriminate.
  intros E. injection E as E. subst res. split; [simpl; lia|].
  apply (length_residuals_spec a b c d Data.experiments).
  repeat constructor.
Qed.

Lemma cell10_stderr (g : Globals) (rows : matrix) :
  g_cov g = Some (Some rows) ->
  g_stderr (snd (cell10 g)) = Some (map np_sqrt (diag_from 0 rows)).
Proof.
  intros H. unfold cell10.
  rewrite (bind_ok _ _ _ _ _ (name_run g_cov g _ H)).
  unfold bind at 1. cbn [lift stderr_of np_diag].
  unfold bind at 1. cbn [set_stderr].
  match goal with
  | |- g_stderr (snd (?c ?g')) = _ =>
      assert (K : keeps g_stderr c)
  end.
  { keeps_steps. apply keeps_stderr_error_turns. }
  rewrite K. reflexivity.
Qed.

(** With [cov] bound to [None], cell 10 stops at [np.diag(cov)] and has
    assigned nothing. *)
Lemma cell10_no_cov (g : Globals) :
  g_cov g = Some None -> cell10 g = (Raise ValueError, g).
Proof.
  intros H. unfold cell10.
  rewrite (bind_ok _ _ _ _ _ (name_run g_cov g _ H)).
  reflexivity.
Qed.

Lemma cell10_run (g : Globals) (r0 r1 r2 r3 : R) (rows : matrix)
  (d0 d1 d2 d3 : R) :
  g_ParameterSet g = true ->
  g_result g = Some [r0; r1; r2; r3] ->
  g_cov g = Some (Some rows) ->
  diag_from 0 rows = [d0; d1; d2; d3] ->
  fst (cell10 g) = Ok tt
  /\ g_optimized_parameters (snd (cell10 g))
     = Some (mkParameterSet (round (Num r0)) (round (Num (r1 / 1000)))
               (round (Num (r2 / 1000))) (round (Num r3)))
  /\ g_standard_errors (snd (cell10 g))
     = Some (mkParameterSet (round (np_sqrt d0))
               (round (np_div (np_sqrt d1) 1000))
               (round (np_div (np_sqrt d2) 1000)) (round (np_sqrt d3)))
  /\ g_stderr (snd (cell10 g))
     = Some [np_sqrt d0; np_sqrt d1; np_sqrt d2; np_sqrt d3]
  /\ g_perr_leastsq (snd (cell10 g))
     = Some (error_loop [r0; r1; r2; r3] (Some rows)).
Proof.
  intros Hp Hr Hc Hd.
  destruct g as [m ar ex ps sg op se tc ca res cov st pe].
  cbn in Hp, Hr, Hc. subst ps res cov.
  unfold cell10.
  match goal with
  | |- context [bind (name g_cov) ?k ?g] =>
      rewrite (bind_ok (name g_cov) k g g (Some rows) eq_refl)
  end.
  unfold bind at 1. cbn [lift stderr_of np_diag]. rewrite Hd.
  repeat split.
Qed.

(** The session through cells 6, 7 and 9 with the flat solver, and cell 10
    on the state it leaves. *)
Lemma flat_session (m : Mem) :
  let g7 := run Recorded.flat_solver [Cell6; Cell7] (start m) in
  let g9 := run Recorded.flat_solver [Cell6; Cell7; Cell9] (start m) in
  fst (cell9 Recorded.flat_solver g7) = Ok tt
  /\ g_result g9 = Some Data.parameters_0
  /\ g_cov g9 = Some None
  /\ g_optimized_parameters g9 = Some placeholder
  /\ g_standard_errors g9 = Some placeholder
  /\ cell10 g9 = (Raise ValueError, g9).
Proof.
  intros g7 g9. subst g7 g9.
  rewrite run_6_7_9.
  rewrite (after_cells_6_7_9 Recorded.flat_solver m Data.parameters_0 None)
    by (try reflexivity; simpl; lia).
  cbn [fst snd].
  split; [reflexivity|]. split; [reflexivity|]. split; [reflexivity|].
  split; [reflexivity|]. split; [reflexivity|].
  apply cell10_no_cov. reflexivity.
Qed.

(** C10 (counterexample): when the solver returns no covariance ([None],
    its answer for a singular matrix) cell 10 stops at [np.diag(cov)], and
    the records published by the last cell are the zero placeholders of
    cell 7, not the rounded solver output [(6, 45, -10, -50)]. *)
Lemma C10_records_left_as_placeholders :
  let g10 := run Recorded.flat_solver [Cell6; Cell7; Cell9; Cell10]
               (start Data.fresh_memory) in
  let rnd := fun x : R => Num (IZR (round_half_even x)) in
  g_result g10 = Some [6; 45e3; -10e3; -50]
  /\ g_optimized_parameters g10 = Some placeholder
  /\ g_standard_errors g10 = Some placeholder
  /\ placeholder
     <> mkParameterSet (rnd 6) (rnd (45e3 / 1000)) (rnd (-10e3 / 1000))
          (rnd (-50)).
Proof.
  intros g10 rnd. subst g10.
  destruct (flat_session Data.fresh_memory) as (_ & Hr & _ & Ho & Hs & H10).
  rewrite run_6_7_9_10, H10. cbn [snd].
  split; [exact Hr|]. split; [exact Ho|]. split; [exact Hs|].
  unfold placeholder, rnd. intros E. injection E as E _ _ _.
  rewrite (ReportFacts.round_half_even_near 6 6) in E by lra. lra.
Qed.

(** C10 (amended): when cell 10 runs with [ParameterSet] bound (cell 7 has
    run), a solution of four numbers and a covariance whose diagonal has
    four entries, the published [optimized_parameters] are
    [round(result[0])], [round(result[1]/1000)], [round(result[2]/1000)]
    and [round(result[3])], whole numbers; and where the diagonal is
    non-negative the published [standard_errors] are the same
    transformation of [stderr], the square roots of the diagonal. *)
Theorem C10_published_records_rounded (g : Globals) (r0 r1 r2 r3 : R)
  (rows : matrix) (d0 d1 d2 d3 : R) :
  g_ParameterSet g = true ->
  g_result g = Some [r0; r1; r2; r3] ->
  g_cov g = Some (Some rows) ->
  diag_from 0 rows = [d0; d1; d2; d3] ->
  let g' := snd (cell10 g) in
  let rnd := fun x : R => Num (IZR (round_half_even x)) in
  g_optimized_parameters g'
  = Some (mkParameterSet (rnd r0) (rnd (r1 / 1000)) (rnd (r2 / 1000))
            (rnd r3))
  /\ (0 <= d0 -> 0 <= d1 -> 0 <= d2 -> 0 <= d3 ->
      g_standard_errors g'
      = Some (mkParameterSet (rnd (sqrt d0)) (rnd (sqrt d1 / 1000))
                (rnd (sqrt d2 / 1000)) (rnd (sqrt d3)))).
Proof.
  intros Hp Hr Hc Hd g' rnd.
  destruct (cell10_run g r0 r1 r2 r3 rows d0 d1 d2 d3 Hp Hr Hc Hd)
    as (_ & Ho & Hs & _).
  fold g' in Ho, Hs. split; [exact Ho|].
  intros H0 H1 H2 H3.
  rewrite !ReportFacts.np_sqrt_nonneg in Hs by assumption.
  exact Hs.
Qed.

(** The session through cells 6, 7 and 9 with the solver that returns the
    recorded covariance. *)
Lemma recorded_session (m : Mem) :
  let g9 := run Recorded.recorded_solver [Cell6; Cell7; Cell9] (start m) in
  g_ParameterSet g9 = true
  /\ g_result g9 = Some Data.parameters_0
  /\ g_cov g9 = Some (Some Recorded.cov).
Proof.
  intros g9. subst g9.
  rewrite run_6_7_9.
  rewrite (after_cells_6_7_9 Recorded.recorded_solver m Data.parameters_0
             (Some Recorded.cov))
    by (try reflexivity; simpl; lia).
  cbn [snd]. repeat split.
Qed.

(** C10 on the notebook after cells 6, 7 and 9, with a solver returning the
    recorded covariance at the starting point. *)
Lemma C10_published_records_rounded_witness :
  let g := run Recorded.recorded_solver [Cell6; Cell7; Cell9]
             (start Data.fresh_memory) in
  let g' := snd (cell10 g) in
  let rnd := fun x : R => Num (IZR (round_half_even x)) in
  g_optimized_parameters g'
  = Some (mkParameterSet (rnd 6) (rnd (45e3 / 1000)) (rnd (-10e3 / 1000))
            (rnd (-50)))
  /\ (0 <= 1.70681232e+01 -> 0 <= 5.78365117e+08 -> 0 <= 7.90860543e+07 ->
      0 <= 7.99196786e+02 ->
      g_standard_errors g'
      = Some (mkParameterSet (rnd (sqrt 1.70681232e+01))
                (rnd (sqrt 5.78365117e+08 / 1000))
                (rnd (sqrt 7.90860543e+07 / 1000))
                (rnd (sqrt 7.99196786e+02)))).
Proof.
  intros g.
  destruct (recorded_session Data.fresh_memory) as (Hp & Hr & Hc).
  apply (C10_published_records_rounded g 6 45e3 (-10e3) (-50) Recorded.cov
           1.70681232e+01 5.78365117e+08 7.90860543e+07 7.99196786e+02);
    [exact Hp|exact Hr|exact Hc|reflexivity].
Defined.

(** C6 (counterexample): with a solver that returns no covariance for a
    flat curvature, cell 9 completes without any condition, cell 10 raises
    [ValueError] at [np.diag], and the published standard errors and
    parameters are the zeros of cell 7. *)
Lemma C6_flat_fit_keeps_zero_placeholders :
  let g7 := run Recorded.flat_solver [Cell6; Cell7]
              (start Data.fresh_memory) in
  let g9 := run Recorded.flat_solver [Cell6; Cell7; Cell9]
              (start Data.fresh_memory) in
  let g10 := run Recorded.flat_solver [Cell6; Cell7; Cell9; Cell10]
               (start Data.fresh_memory) in
  fst (cell9 Recorded.flat_solver g7) = Ok tt
  /\ g_cov g9 = Some None
  /\ fst (cell10 g9) = Raise ValueError
  /\ g_standard_errors g10 = Some placeholder
  /\ g_optimized_parameters g10 = Some placeholder.
Proof.
  intros g7 g9 g10. subst g7 g9 g10.
  destruct (flat_session Data.fresh_memory) as (H9 & _ & Hc & Ho & Hs & H10).
  rewrite run_6_7_9_10, H10. cbn [fst snd].
  split; [exact H9|]. split; [exact Hc|]. split; [reflexivity|].
  split; [exact Hs|exact Ho].
Qed.

(** C6 (amended): there is no degenerate-fit condition.  Whatever
    covariance the solver returns with a solution of four numbers, [None]
    (its answer for a singular matrix) included, cell 9 (run with [array]
    bound, that is after cell 6) binds [cov] to it as returned and
    completes without raising, and it leaves the published records as they
    were; when the covariance is [None], cell 10 then stops with
    [ValueError] at [np.diag(cov)] before it assigns anything, so that the
    published records stay what they were before the fit. *)
Theorem C6_no_degenerate_fit_condition
  (leastsq : (list R -> py (list R)) -> list R -> py (list R * option matrix))
  (g : Globals) (r0 r1 r2 r3 : R) (cov_x : option matrix) :
  g_array g = true ->
  leastsq notebook_residuals Data.parameters_0
  = Ok ([r0; r1; r2; r3], cov_x) ->
  let g9 := snd (cell9 leastsq g) in
  fst (cell9 leastsq g) = Ok tt
  /\ g_cov g9 = Some cov_x
  /\ g_result g9 = Some [r0; r1; r2; r3]
  /\ g_optimized_parameters g9 = g_optimized_parameters g
  /\ g_standard_errors g9 = g_standard_errors g
  /\ (cov_x = None -> cell10 g9 = (Raise ValueError, g9)).
Proof.
  intros Ha H g9.
  destruct g as [m ar ex ps sg op se tc ca res cov st pe].
  cbn in Ha. subst ar. destruct m as [h j].
  assert (E : cell9 leastsq
                (mkGlobals (mkMem h j) true ex ps sg op se tc ca res cov
                   st pe) = _)
    by (apply (cell9_run leastsq h j ex ps sg op se tc ca res cov st pe
                 [r0; r1; r2; r3] cov_x H); simpl; lia).
  unfold g9. rewrite E. cbn [fst snd].
  split; [reflexivity|]. split; [reflexivity|]. split; [reflexivity|].
  split; [reflexivity|]. split; [reflexivity|].
  intros ->. apply cell10_no_cov. reflexivity.
Qed.

(** C6 on the notebook after cells 6 and 7, with the flat solver. *)
Lemma C6_no_degenerate_fit_condition_witness :
  let g := run Recorded.flat_solver [Cell6; Cell7]
             (start Data.fresh_memory) in
  let g9 := snd (cell9 Recorded.flat_solver g) in
  fst (cell9 Recorded.flat_solver g) = Ok tt
  /\ g_cov g9 = Some None
  /\ g_result g9 = Some [6; 45e3; -10e3; -50]
  /\ g_optimized_parameters g9 = g_optimized_parameters g
  /\ g_standard_errors g9 = g_standard_errors g
  /\ (@None matrix = None -> cell10 g9 = (Raise ValueError, g9)).
Proof.
  intros g.
  apply (C6_no_degenerate_fit_condition Recorded.flat_solver g
           6 45e3 (-10e3) (-50) None); reflexivity.
Defined.

Lemma sum_of_squares_nonneg (r : list R) : 0 <= sum_of_squares r.
Proof.
  induction r as [|x r IH]; simpl; [lra|]. nra.
Qed.

(** C4: whatever the solver, the [cov] of cell 9 is the [cov_x] it
    returned and the standard errors of cell 10 are the square roots of
    its diagonal, used as it is; with [SSR] the sum of the squared
    residuals at the solution and [n_obs] their number (thirty), they are
    not those of the covariance of the specification,
    [SSR / (n_obs - 4) * cov_x], unless that residual variance is one. *)
Theorem C4_stderr_from_unscaled_cov
  (leastsq : (list R -> py (list R)) -> list R -> py (list R * option matrix))
  (m : Mem) (result : list R) (cov_x : matrix) (res : list R)
  (d : R) (rest : list R) :
  leastsq notebook_residuals Data.parameters_0 = Ok (result, Some cov_x) ->
  notebook_residuals result = Ok res ->
  diag_from 0 cov_x = d :: rest ->
  0 < d ->
  let g9 := run leastsq [Cell6; Cell7; Cell9] (start m) in
  let g10 := run leastsq [Cell6; Cell7; Cell9; Cell10] (start m) in
  let SSR := sum_of_squares res in
  let n_obs := length res in
  g_cov g9 = Some (Some cov_x)
  /\ g_stderr g10 = Some (map np_sqrt (diag_from 0 cov_x))
  /\ n_obs = 30%nat
  /\ (residual_variance SSR n_obs 4 <> 1 ->
      map np_sqrt (diag_from 0 cov_x)
      <> map np_sqrt (diag_from 0 (spec_covariance SSR n_obs 4 cov_x))).
Proof.
  intros H Hres Hd Hpos g9 g10 SSR n_obs.
  destruct (notebook_residuals_length result res Hres) as [L4 L30].
  assert (Hc : g_cov g9 = Some (Some cov_x)).
  { unfold g9. rewrite run_6_7_9.
    rewrite (after_cells_6_7_9 leastsq m result (Some cov_x) H L4).
    reflexivity. }
  split; [exact Hc|]. split; [|split; [exact L30|]].
  - unfold g10. rewrite run_6_7_9_10.
    apply cell10_stderr, Hc.
  - intros Hs1.
    rewrite ReportFacts.diag_from_spec_covariance, Hd. cbn [map].
    assert (Hs : 0 <= residual_variance SSR n_obs 4).
    { unfold residual_variance, n_obs. rewrite L30.
      apply Rmult_le_pos; [apply sum_of_squares_nonneg|].
      left. apply Rinv_0_lt_compat. simpl. lra. }
    rewrite !ReportFacts.np_sqrt_nonneg by nra.
    intros Eq. injection Eq as Eq _.
    apply sqrt_inj in Eq; nra.
Qed.

(** C4 on the recorded covariance, returned at the starting point of the
    fit with the residuals of the three experiments there. *)
Lemma C4_stderr_from_unscaled_cov_witness :
  let res := residuals_spec 6 45e3 (-10e3) (-50) Data.experiments in
  let g9 := run Recorded.recorded_solver [Cell6; Cell7; Cell9]
              (start Data.fresh_memory) in
  let g10 := run Recorded.recorded_solver [Cell6; Cell7; Cell9; Cell10]
               (start Data.fresh_memory) in
  let SSR := sum_of_squares res in
  let n_obs := length res in
  g_cov g9 = Some (Some Recorded.cov)
  /\ g_stderr g10 = Some (map np_sqrt (diag_from 0 Recorded.cov))
  /\ n_obs = 30%nat
  /\ (residual_variance SSR n_obs 4 <> 1 ->
      map np_sqrt (diag_from 0 Recorded.cov)
      <> map np_sqrt (diag_from 0 (spec_covariance SSR n_obs 4 Recorded.cov))).
Proof.
  intros res.
  apply (C4_stderr_from_unscaled_cov Recorded.recorded_solver
           Data.fresh_memory Data.parameters_0 Recorded.cov res
           1.70681232e+01
           [5.78365117e+08; 7.90860543e+07; 7.99196786e+02]);
    try reflexivity.
  lra.
Defined.

End NotebookFacts.

(** ** Further properties of the concentration model *)

Module KineticsFacts.
Import Model ModelFacts Kinetics.

Lemma kr_pos T logA E_a dH dS : 0 < kr T logA E_a dH dS.
Proof.
  unfold kr. apply Rdiv_lt_0_compat; [apply kf_pos|apply K_code_pos].
Qed.

(** The relaxation rate is the sum of the two rate coefficients. *)
Lemma k_total_sum T logA E_a dH dS :
  k_total T logA E_a dH dS = kf T logA E_a + kr T logA E_a dH dS.
Proof.
  unfold k_total, kr. pose proof (K_code_pos T dH dS). field. lra.
Qed.

Lemma net_rate_form C_0 T logA E_a dH dS C :
  net_rate C_0 T logA E_a dH dS C =
  - k_total T logA E_a dH dS * (C - C_A_eq C_0 T dH dS).
Proof.
  unfold net_rate. rewrite k_total_sum. unfold kr, C_A_eq.
  pose proof (K_code_pos T dH dS). field. lra.
Qed.

(** X1: in its time argument [func] solves the rate equation of the
    notebook: at every time its derivative is the net rate of formation
    [k_r (C_0 - C_A) - k_f C_A] at the concentration it returns. *)
Theorem func_solves_rate_equation (t C_0 T logA E_a dH dS : R) :
  derivable_pt_lim (fun s => func s C_0 T logA E_a dH dS) t
    (net_rate C_0 T logA E_a dH dS (func t C_0 T logA E_a dH dS)).
Proof.
  set (k := k_total T logA E_a dH dS).
  set (x := C_A_eq C_0 T dH dS).
  apply derivable_pt_lim_ext
    with (f := (fct_cte x
                + mult_real_fct (C_0 - x)
                    (comp exp (mult_real_fct (- k) id)))%F).
  { intros s. rewrite func_relaxation_form.
    unfold plus_fct, fct_cte, mult_real_fct, comp, id. fold k x.
    do 3 f_equal. }
  rewrite net_rate_form, func_relaxation_form. fold k x.
  replace (- k * (x + (C_0 - x) * exp (- k * t) - x))
    with (0 + (C_0 - x) * (exp (- k * t) * (- k * 1))) by ring.
  apply derivable_pt_lim_plus; [apply derivable_pt_lim_const|].
  apply derivable_pt_lim_scal.
  apply derivable_pt_lim_comp.
  - apply derivable_pt_lim_scal, derivable_pt_lim_id.
  - unfold mult_real_fct, id. apply derivable_pt_lim_exp.
Qed.

(** X2: the concentration [x] that [func] relaxes to is the one and only
    concentration at which the net rate vanishes, and there the ratio of B
    to A is the equilibrium term [exp((dH - T*dS)/(R*T))]. *)
Theorem equilibrium_is_the_stationary_point (C_0 T logA E_a dH dS C : R) :
  (net_rate C_0 T logA E_a dH dS C = 0 <-> C = C_A_eq C_0 T dH dS)
  /\ C_0 - C_A_eq C_0 T dH dS = K_code T dH dS * C_A_eq C_0 T dH dS.
Proof.
  split.
  - rewrite net_rate_form.
    pose proof (k_total_pos T logA E_a dH dS) as Hk. split.
    + intros H. apply Rmult_integral in H. destruct H; lra.
    + intros ->. ring.
  - unfold C_A_eq. pose proof (K_code_pos T dH dS). field. lra.
Qed.

Lemma func_homogeneous (a t C_0 T logA E_a dH dS : R) :
  func t (a * C_0) T logA E_a dH dS = a * func t C_0 T logA E_a dH dS.
Proof.
  rewrite !func_relaxation_form. unfold C_A_eq.
  pose proof (K_code_pos T dH dS). field. lra.
Qed.

(** X4: [func] is homogeneous in the initial concentration: a batch
    started at [a * C_0] is at [a] times the concentration of a batch
    started at [C_0], at every time. *)
Theorem func_scales_with_initial_concentration (a t C_0 T logA E_a dH dS : R) :
  func t (a * C_0) T logA E_a dH dS = a * func t C_0 T logA E_a dH dS.
Proof. apply func_homogeneous. Qed.

(** X5: time and the pre-exponential factor enter [func] through their
    product only: measuring time in a unit [10^d] times smaller is the
    same as adding [d] to [logA]. *)
Theorem func_time_unit (d t C_0 T logA E_a dH dS : R) :
  func (t * Rpower 10 d) C_0 T logA E_a dH dS
  = func t C_0 T (logA + d) E_a dH dS.
Proof.
  rewrite !func_relaxation_form. do 3 f_equal.
  unfold k_total, kf. rewrite Rpower_plus. ring.
Qed.

(** X6: at the half-life [ln 2 / k_total], [func] is midway between the
    initial and the equilibrium concentration. *)
Theorem func_at_half_life (C_0 T logA E_a dH dS : R) :
  func (half_life T logA E_a dH dS) C_0 T logA E_a dH dS
  = (C_0 + C_A_eq C_0 T dH dS) / 2.
Proof.
  rewrite func_relaxation_form. unfold half_life.
  pose proof (k_total_pos T logA E_a dH dS) as Hk.
  replace (- k_total T logA E_a dH dS * (ln 2 / k_total T logA E_a dH dS))
    with (- ln 2) by (field; lra).
  rewrite exp_Ropp, exp_ln by lra. field.
Qed.

Lemma func_isothermal_invariance (a b t C_0 T logA E_a dH dS : R) :
  T <> 0 ->
  func t C_0 T (logA + a) (E_a + 8.314 * T * ln 10 * a)
    (dH + T * b) (dS + b)
  = func t C_0 T logA E_a dH dS.
Proof.
  intros HT. rewrite !func_relaxation_form.
  assert (EK : K_code T (dH + T * b) (dS + b) = K_code T dH dS).
  { unfold K_code. f_equal. f_equal. ring. }
  assert (Ef : kf T (logA + a) (E_a + 8.314 * T * ln 10 * a)
               = kf T logA E_a).
  { unfold kf, Rpower, R_gas. rewrite <- !exp_plus. f_equal.
    field. split; [exact HT|lra]. }
  unfold C_A_eq, k_total. rewrite EK, Ef. reflexivity.
Qed.

(** X7: at one temperature the four parameters are not identifiable:
    [func] is unchanged when [dH] and [dS] move along [dH - T*dS], and
    when [logA] and [E_a] move along [logA * ln 10 - E_a/(R*T)]. *)
Theorem func_isothermal_degeneracy (a b t C_0 T logA E_a dH dS : R) :
  T <> 0 ->
  func t C_0 T (logA + a) (E_a + 8.314 * T * ln 10 * a)
    (dH + T * b) (dS + b)
  = func t C_0 T logA E_a dH dS.
Proof. apply func_isothermal_invariance. Qed.

Lemma func_isothermal_degeneracy_witness :
  func 10 10 298.15 (6 + 1) (45e3 + 8.314 * 298.15 * ln 10 * 1)
    (-10e3 + 298.15 * 2) (-50 + 2)
  = func 10 10 298.15 6 45e3 (-10e3) (-50).
Proof.
  apply (func_isothermal_degeneracy 1 2 10 10 298.15 6 45e3 (-10e3) (-50)).
  lra.
Defined.

End KineticsFacts.

(** ** Further properties of the residual function *)

Module ResidualsMore.
Import Model Py PyFacts Residuals ResidualsFacts Variants.
Local Open Scope py_scope.

(** X8: experiments that all ran at one temperature cannot tell the four
    parameters apart: for any sequence of experiments at temperature
    [T0], [leastsqfunc] returns the same residuals (or raises the same
    exception) along a two-parameter family of parameter vectors. *)
Theorem residuals_isothermal_degeneracy (a b T0 logA E_a dH dS : R)
  (es : list ExperimentData) (m : Mem) :
  T0 <> 0 ->
  Forall (fun e => T e = T0) es ->
  residuals [logA + a; E_a + 8.314 * T0 * ln 10 * a; dH + T0 * b; dS + b]
    es m
  = residuals [logA; E_a; dH; dS] es m.
Proof.
  intros HT Hes.
  destruct es as [|e0 [|e1 [|e2 more]]];
    try (rewrite !residuals_too_few by (simpl; lia); reflexivity).
  rewrite !residuals_value. cbv zeta. f_equal.
  inversion Hes as [|? ? H0 Hes1]; subst.
  inversion Hes1 as [|? ? H1 Hes2]; subst.
  inversion Hes2 as [|? ? H2 _]; subst.
  unfold predictions, np_func. rewrite H1, H2.
  repeat f_equal;
    apply functional_extensionality; intros t;
    apply KineticsFacts.func_isothermal_invariance; exact HT.
Qed.

Lemma residuals_isothermal_degeneracy_witness :
  residuals
    [6 + 1; 45e3 + 8.314 * 298.15 * ln 10 * 1; -10e3 + 298.15 * 2; -50 + 2]
    [Data.experiment_0; Data.experiment_0; Data.experiment_0]
    Data.fresh_memory
  = residuals [6; 45e3; -10e3; -50]
      [Data.experiment_0; Data.experiment_0; Data.experiment_0]
      Data.fresh_memory.
Proof.
  apply (residuals_isothermal_degeneracy 1 2 298.15 6 45e3 (-10e3) (-50)).
  - lra.
  - repeat constructor.
Defined.

(** X9: a parameter vector of fewer than four entries makes
    [leastsqfunc] raise [IndexError] before it touches the memory. *)
Theorem leastsqfunc_short_parameters (parameters : list R)
  (arguments : Arguments) (m : Mem) :
  (length parameters < 4)%nat ->
  leastsqfunc parameters arguments m = (Raise IndexError, m).
Proof. apply leastsqfunc_needs_four. Qed.

Lemma leastsqfunc_short_parameters_witness :
  leastsqfunc [6; 45e3; -10e3]
    (mkArguments 0%nat 1%nat Data.C_0_tuple Data.T_tuple (10%nat, 30%nat))
    (mkMem [Data.tcombined; Data.C_A] (fun _ _ => 0))
  = (Raise IndexError, mkMem [Data.tcombined; Data.C_A] (fun _ _ => 0)).
Proof.
  apply leastsqfunc_short_parameters. simpl. lia.
Defined.

(** X10: observations and times of different lengths, neither of length
    one, make [leastsqfunc] raise [ValueError] at the final subtraction. *)
Theorem leastsqfunc_shape_mismatch (m : Mem) (logA E_a dH dS : R)
  (rest : list R) (arguments : Arguments) (tc obs : list R)
  (c0 c1 c2 : R) (cr : list R) (T0 T1 T2 : R) (Tr : list R) :
  nth_error (heap m) (arg_tcombined arguments) = Some tc ->
  nth_error (heap m) (arg_C_A arguments) = Some obs ->
  arg_C_0 arguments = c0 :: c1 :: c2 :: cr ->
  arg_T arguments = T0 :: T1 :: T2 :: Tr ->
  length obs <> length tc -> length obs <> 1%nat -> length tc <> 1%nat ->
  fst (leastsqfunc (logA :: E_a :: dH :: dS :: rest) arguments m)
  = Raise ValueError.
Proof.
  intros Htc Hobs HC HT Hne Ho Ht.
  rewrite (leastsqfunc_value m logA E_a dH dS rest arguments tc obs
             c0 c1 c2 cr T0 T1 T2 Tr Htc Hobs HC HT).
  pose proof (length_predictions logA E_a dH dS tc c0 T0 c1 T1 c2 T2) as L.
  set (fit := predictions logA E_a dH dS tc c0 T0 c1 T1 c2 T2) in *.
  unfold np_sub.
  destruct (Nat.eqb_spec (length obs) (length fit)) as [E|_]; [lia|].
  destruct obs as [|x [|y obs]]; destruct fit as [|u [|v fit]];
    simpl in *; try reflexivity; lia.
Qed.

Lemma leastsqfunc_shape_mismatch_witness :
  fst (leastsqfunc [6; 45e3; -10e3; -50]
         (mkArguments 0%nat 1%nat Data.C_0_tuple Data.T_tuple (10%nat, 30%nat))
         (mkMem [Data.tcombined; Data.t] (fun _ _ => 0)))
  = Raise ValueError.
Proof.
  apply (leastsqfunc_shape_mismatch _ 6 45e3 (-10e3) (-50) [] _
           Data.tcombined Data.t 10 10 10 [] 298.15 308.15 323.15 []);
    try reflexivity; simpl; lia.
Defined.

(** X11: a single observation is not refused: it is broadcast, and
    [leastsqfunc] returns that one observation minus every prediction. *)
Theorem leastsqfunc_broadcasts_single_observation (m : Mem)
  (logA E_a dH dS : R) (rest : list R) (arguments : Arguments)
  (tc : list R) (c : R)
  (c0 c1 c2 : R) (cr : list R) (T0 T1 T2 : R) (Tr : list R) :
  nth_error (heap m) (arg_tcombined arguments) = Some tc ->
  nth_error (heap m) (arg_C_A arguments) = Some [c] ->
  arg_C_0 arguments = c0 :: c1 :: c2 :: cr ->
  arg_T arguments = T0 :: T1 :: T2 :: Tr ->
  fst (leastsqfunc (logA :: E_a :: dH :: dS :: rest) arguments m)
  = Ok (map (fun y => c - y)
          (predictions logA E_a dH dS tc c0 T0 c1 T1 c2 T2)).
Proof.
  intros Htc Hobs HC HT.
  rewrite (leastsqfunc_value m logA E_a dH dS rest arguments tc [c]
             c0 c1 c2 cr T0 T1 T2 Tr Htc Hobs HC HT).
  set (fit := predictions logA E_a dH dS tc c0 T0 c1 T1 c2 T2).
  unfold np_sub.
  destruct (Nat.eqb_spec (length [c]) (length fit)) as [E|_];
    [|reflexivity].
  destruct fit as [|u [|v fit]]; try discriminate. reflexivity.
Qed.

Lemma leastsqfunc_broadcasts_single_observation_witness :
  fst (leastsqfunc [6; 45e3; -10e3; -50]
         (mkArguments 0%nat 1%nat Data.C_0_tuple Data.T_tuple (10%nat, 30%nat))
         (mkMem [Data.tcombined; [5]] (fun _ _ => 0)))
  = Ok (map (fun y => 5 - y)
          (predictions 6 45e3 (-10e3) (-50) Data.tcombined
             10 298.15 10 308.15 10 323.15)).
Proof.
  apply (leastsqfunc_broadcasts_single_observation _ 6 45e3 (-10e3) (-50) []
           _ Data.tcombined 5 10 10 10 [] 298.15 308.15 323.15 []);
    reflexivity.
Defined.

Lemma length_concat_times_cA (es : list ExperimentData) :
  Forall (fun e => length (times e) = length (cA e)) es ->
  length (concat (map times es)) = length (concat (map cA es)).
Proof.
  intros H. induction H as [|e es He _ IH]; simpl; [reflexivity|].
  rewrite !length_app, He, IH. reflexivity.
Qed.

(** X12: experiments after the third are not told apart from it: their
    observations fall into the open-ended third slice and are predicted
    with the initial concentration and temperature of the third
    experiment, whatever their own. *)
Theorem residuals_beyond_third_experiment (m : Mem) (logA E_a dH dS : R)
  (e0 e1 e2 : ExperimentData) (more : list ExperimentData) :
  length (times e0) = 10%nat -> length (cA e0) = 10%nat ->
  length (times e1) = 10%nat -> length (cA e1) = 10%nat ->
  Forall (fun e => length (times e) = length (cA e)) (e2 :: more) ->
  residuals [logA; E_a; dH; dS] (e0 :: e1 :: e2 :: more) m
  = Ok (residuals_spec logA E_a dH dS [e0; e1; merged_tail e2 more]).
Proof.
  intros Ht0 Hc0 Ht1 Hc1 Hall.
  rewrite <- (residuals_three m logA E_a dH dS e0 e1 (merged_tail e2 more))
    by (try assumption; apply (length_concat_times_cA _ Hall)).
  rewrite !residuals_value. cbv zeta.
  simpl. rewrite !app_nil_r. reflexivity.
Qed.

Lemma residuals_beyond_third_experiment_witness :
  residuals [6; 45e3; -10e3; -50]
    [Data.experiment_0; Data.experiment_1; Data.experiment_2;
     Data.experiment_0] Data.fresh_memory
  = Ok (residuals_spec 6 45e3 (-10e3) (-50)
          [Data.experiment_0; Data.experiment_1;
           merged_tail Data.experiment_2 [Data.experiment_0]]).
Proof.
  apply residuals_beyond_third_experiment; try reflexivity.
  repeat constructor.
Defined.

Lemma residual_list_zero (f : R -> R) (ts cs : list R) :
  length ts = length cs ->
  (map (fun p => snd p - f (fst p)) (combine ts cs) = repeat 0 (length ts)
   <-> cs = map f ts).
Proof.
  revert cs. induction ts as [|t ts IH]; intros [|c cs] H; simpl in *;
    try discriminate.
  - split; reflexivity.
  - injection H as H. specialize (IH cs H). split.
    + intros E. injection E as E0 E1. f_equal; [lra|apply IH, E1].
    + intros E. injection E as E0 E1. f_equal; [lra|apply IH, E1].
Qed.

Lemma experiment_residuals_zero logA E_a dH dS (e : ExperimentData) :
  length (times e) = length (cA e) ->
  (experiment_residuals logA E_a dH dS e = repeat 0 (length (times e))
   <-> cA e = np_func (times e) (cA_start e) (T e) logA E_a dH dS).
Proof.
  intros H.
  apply (residual_list_zero
           (fun t => func t (cA_start e) (T e) logA E_a dH dS)), H.
Qed.

Lemma app_eq_by_length {A : Type} (a a' b b' : list A) :
  length a = length a' -> a ++ b = a' ++ b' -> a = a' /\ b = b'.
Proof.
  revert a'. induction a as [|x a IH]; intros [|y a'] H E; simpl in *;
    try discriminate.
  - split; [reflexivity|exact E].
  - injection E as -> E. injection H as H.
    destruct (IH a' H E) as [-> ->]. split; reflexivity.
Qed.

(** X13: for three experiments of which the first two have ten
    observations, the residual vector is zero throughout exactly when every
    observed concentration is the one [func] predicts; in particular data
    generated from the model at some parameters have zero residuals at
    those parameters. *)
Theorem residuals_zero_iff_exact_fit (m : Mem) (logA E_a dH dS : R)
  (e0 e1 e2 : ExperimentData) :
  length (times e0) = 10%nat -> length (cA e0) = 10%nat ->
  length (times e1) = 10%nat -> length (cA e1) = 10%nat ->
  length (times e2) = length (cA e2) ->
  (residuals [logA; E_a; dH; dS] [e0; e1; e2] m
   = Ok (repeat 0 (observation_count [e0; e1; e2]))
   <-> Forall (fun e => cA e = np_func (times e) (cA_start e) (T e)
                                 logA E_a dH dS) [e0; e1; e2])
  /\ residuals [logA; E_a; dH; dS]
       [synthetic logA E_a dH dS e0; synthetic logA E_a dH dS e1;
        synthetic logA E_a dH dS e2] m
     = Ok (repeat 0 (length (times e0) + length (times e1)
                     + length (times e2))).
Proof.
  intros Ht0 Hc0 Ht1 Hc1 H2.
  assert (Z : forall e, length (times e) = length (cA e) ->
            length (experiment_residuals logA E_a dH dS e)
            = length (repeat 0 (length (cA e)))).
  { intros e He. rewrite length_experiment_residuals by exact He.
    rewrite repeat_length. reflexivity. }
  split.
  - rewrite residuals_three by assumption.
    replace (observation_count [e0; e1; e2])
      with (length (cA e0) + (length (cA e1) + length (cA e2)))%nat
      by (unfold observation_count; simpl; lia).
    unfold residuals_spec. cbn [flat_map].
    rewrite app_nil_r, !repeat_app.
    split.
    + intros E. injection E as E.
      apply app_eq_by_length in E; [|apply Z; congruence].
      destruct E as [E0 E].
      apply app_eq_by_length in E; [|apply Z; congruence].
      destruct E as [E1 E2].
      repeat constructor.
      * apply experiment_residuals_zero; [congruence|].
        rewrite E0. f_equal. congruence.
      * apply experiment_residuals_zero; [congruence|].
        rewrite E1. f_equal. congruence.
      * apply experiment_residuals_zero; [congruence|].
        rewrite E2. f_equal. congruence.
    + intros F.
      inversion F as [|? ? F0 F']; subst.
      inversion F' as [|? ? F1 F'']; subst.
      inversion F'' as [|? ? F2 _]; subst.
      apply (experiment_residuals_zero logA E_a dH dS) in F0;
        [|congruence].
      apply (experiment_residuals_zero logA E_a dH dS) in F1;
        [|congruence].
      apply (experiment_residuals_zero logA E_a dH dS) in F2;
        [|congruence].
      rewrite F0, F1, F2. do 2 f_equal; [congruence|].
      f_equal; f_equal; congruence.
  - rewrite residuals_three;
      try (simpl; rewrite ?length_np_func; assumption);
      [|simpl; rewrite length_np_func; reflexivity].
    unfold residuals_spec. cbn [flat_map]. rewrite app_nil_r.
    assert (S : forall e,
              experiment_residuals logA E_a dH dS
                (synthetic logA E_a dH dS e)
              = repeat 0 (length (times e))).
    { intros e.
      apply (experiment_residuals_zero logA E_a dH dS
               (synthetic logA E_a dH dS e)).
      - simpl. rewrite length_np_func. reflexivity.
      - reflexivity. }
    rewrite !S, <- !repeat_app, Nat.add_assoc. reflexivity.
Qed.

Lemma residuals_zero_iff_exact_fit_witness :
  (residuals [6; 45e3; -10e3; -50] Data.experiments Data.fresh_memory
   = Ok (repeat 0 (observation_count Data.experiments))
   <-> Forall (fun e => cA e = np_func (times e) (cA_start e) (T e)
                                 6 45e3 (-10e3) (-50)) Data.experiments)
  /\ residuals [6; 45e3; -10e3; -50]
       [synthetic 6 45e3 (-10e3) (-50) Data.experiment_0;
        synthetic 6 45e3 (-10e3) (-50) Data.experiment_1;
        synthetic 6 45e3 (-10e3) (-50) Data.experiment_2]
       Data.fresh_memory
     = Ok (repeat 0 (length (times Data.experiment_0)
                     + length (times Data.experiment_1)
                     + length (times Data.experiment_2))).
Proof.
  apply (residuals_zero_iff_exact_fit Data.fresh_memory 6 45e3 (-10e3) (-50)
           Data.experiment_0 Data.experiment_1 Data.experiment_2);
    reflexivity.
Defined.

Lemma np_sub_scaled (a : R) (o f : list R) :
  np_sub (map (Rmult a) o) (map (Rmult a) f)
  = py_map (map (Rmult a)) (np_sub o f).
Proof.
  unfold np_sub. rewrite !length_map.
  destruct (Nat.eqb (length o) (length f)).
  - simpl. f_equal. revert f.
    induction o as [|x o IH]; intros [|y f]; simpl; try reflexivity.
    f_equal; [ring|apply IH].
  - destruct o as [|x [|x' o]]; destruct f as [|y [|y' f]]; simpl;
      try reflexivity; apply f_equal;
      repeat (apply (f_equal2 (@cons R)); [ring|]);
      try reflexivity;
      rewrite !map_map; apply map_ext; intros; ring.
Qed.

Lemma predictions_scaled (a logA E_a dH dS : R) (tc : list R)
  (c0 T0 c1 T1 c2 T2 : R) :
  predictions logA E_a dH dS tc (a * c0) T0 (a * c1) T1 (a * c2) T2
  = map (Rmult a) (predictions logA E_a dH dS tc c0 T0 c1 T1 c2 T2).
Proof.
  unfold predictions, np_func. rewrite !map_app, !map_map.
  repeat f_equal; apply functional_extensionality; intros t;
    apply KineticsFacts.func_homogeneous.
Qed.

Lemma concat_cA_rescaled (a : R) (es : list ExperimentData) :
  concat (map cA (map (rescaled a) es))
  = map (Rmult a) (concat (map cA es)).
Proof.
  induction es as [|e es IH]; simpl; [reflexivity|].
  rewrite map_app, IH. reflexivity.
Qed.

Lemma concat_times_rescaled (a : R) (es : list ExperimentData) :
  concat (map times (map (rescaled a) es)) = concat (map times es).
Proof.
  induction es as [|e es IH]; simpl; [reflexivity|]. now rewrite IH.
Qed.

(** X14: the residuals follow the unit of concentration: multiplying every
    observed and initial concentration by [a] multiplies every residual by
    [a], and changes nothing to whether [leastsqfunc] raises. *)
Theorem residuals_scale_with_concentrations (a logA E_a dH dS : R)
  (es : list ExperimentData) (m : Mem) :
  residuals [logA; E_a; dH; dS] (map (rescaled a) es) m
  = py_map (map (Rmult a)) (residuals [logA; E_a; dH; dS] es m).
Proof.
  destruct es as [|e0 [|e1 [|e2 more]]];
    try (rewrite !residuals_too_few by (simpl; lia); reflexivity).
  cbn [map]. rewrite !residuals_value. cbv zeta.
  change (rescaled a e0 :: rescaled a e1 :: rescaled a e2
          :: map (rescaled a) more)
    with (map (rescaled a) (e0 :: e1 :: e2 :: more)).
  rewrite concat_cA_rescaled, concat_times_rescaled.
  cbn [rescaled cA_start T].
  rewrite predictions_scaled. apply np_sub_scaled.
Qed.

End ResidualsMore.

(** ** Further properties of the post-processing and of the cells *)

Module ReportMore.
Import Model Py PyFacts Residuals ResidualsFacts Variants.
Import Report ReportFacts Loop Notebook NotebookFacts.
Local Open Scope py_scope.

Lemma round_half_even_error (x : R) :
  - (1 / 2) <= IZR (round_half_even x) - x <= 1 / 2.
Proof.
  unfold round_half_even.
  destruct (base_Int_part x) as [Hlo Hhi].
  set (f := Int_part x) in *.
  destruct (Rlt_dec (x - IZR f) (1 / 2)) as [H1|H1]; [lra|].
  destruct (Rlt_dec (1 / 2) (x - IZR f)) as [H2|H2].
  - rewrite plus_IZR. lra.
  - destruct (Z.even f); [|rewrite plus_IZR]; lra.
Qed.

Lemma round_half_even_IZR (z : Z) : round_half_even (IZR z) = z.
Proof. apply round_half_even_near. lra. Qed.

(** X15: the published parameters are whole numbers within half a unit of
    what they round: [logA] and [dS] within [0.5] of the solver's values,
    [Ea] and [dH], published in kJ/mol, within [500] J/mol of them. *)
Theorem published_parameters_within_half_unit (r0 r1 r2 r3 : R) :
  exists a b c d : Z,
    optimized_parameters_of [r0; r1; r2; r3]
    = Ok (mkParameterSet (Num (IZR a)) (Num (IZR b)) (Num (IZR c))
            (Num (IZR d)))
    /\ Rabs (IZR a - r0) <= 1 / 2
    /\ Rabs (1000 * IZR b - r1) <= 500
    /\ Rabs (1000 * IZR c - r2) <= 500
    /\ Rabs (IZR d - r3) <= 1 / 2.
Proof.
  exists (round_half_even r0), (round_half_even (r1 / 1000)),
         (round_half_even (r2 / 1000)), (round_half_even r3).
  split; [reflexivity|].
  pose proof (round_half_even_error r0) as E0.
  pose proof (round_half_even_error (r1 / 1000)) as E1.
  pose proof (round_half_even_error (r2 / 1000)) as E2.
  pose proof (round_half_even_error r3) as E3.
  repeat split; apply Rabs_le; lra.
Qed.

(** X16: publishing undoes the change of unit of the solver's vector: for
    whole-number parameters in the units of [ParameterSet] (kJ/mol for
    [Ea] and [dH]), the vector with [Ea] and [dH] in J/mol is published as
    those same parameters. *)
Theorem published_parameters_round_trip (a b c d : Z) :
  optimized_parameters_of [IZR a; 1000 * IZR b; 1000 * IZR c; IZR d]
  = Ok (mkParameterSet (Num (IZR a)) (Num (IZR b)) (Num (IZR c))
          (Num (IZR d))).
Proof.
  unfold optimized_parameters_of. cbn [index nth_error round np_div].
  replace (1000 * IZR b / 1000) with (IZR b) by (field; lra).
  replace (1000 * IZR c / 1000) with (IZR c) by (field; lra).
  rewrite !round_half_even_IZR. reflexivity.
Qed.

Lemma error_loop_fold (cov : option matrix) (range : list nat)
  (error : list R) :
  fold_left (error_append cov) range error
  = error ++ map (error_entry cov) range.
Proof.
  revert error. induction range as [|i range IH]; intros error; simpl.
  - symmetry. apply app_nil_r.
  - rewrite IH. unfold error_append, error_entry.
    destruct (cov_entry cov i); rewrite <- app_assoc; reflexivity.
Qed.

Lemma error_entry_nonneg (cov : option matrix) (i : nat) :
  0 <= error_entry cov i.
Proof.
  unfold error_entry. destruct (cov_entry cov i); [apply sqrt_pos|lra].
Qed.

(** X17: the loop of cell 10 returns one entry per fitted parameter,
    whatever the covariance: the square root of [|cov[i][i]|] where that
    entry can be read and [0.00] where it cannot ([cov] is [None], or has
    fewer rows or columns); no entry is negative and nothing is raised. *)
Theorem error_loop_entries (result : list R) (cov : option matrix) :
  error_loop result cov = map (error_entry cov) (seq 0 (length result))
  /\ length (error_loop result cov) = length result
  /\ Forall (fun x => 0 <= x) (error_loop result cov).
Proof.
  assert (E : error_loop result cov
              = map (error_entry cov) (seq 0 (length result))).
  { unfold error_loop. rewrite error_loop_fold. reflexivity. }
  rewrite E. split; [reflexivity|split].
  - rewrite length_map, length_seq. reflexivity.
  - apply Forall_forall. intros x Hx.
    apply in_map_iff in Hx. destruct Hx as (i & <- & _).
    apply error_entry_nonneg.
Qed.

Lemma keeps_cov_cell6 : keeps g_cov cell6.
Proof. unfold cell6. keeps_steps. Qed.

Lemma keeps_cov_cell7 : keeps g_cov cell7.
Proof. unfold cell7. keeps_steps. Qed.

Lemma cell10_unbound_cov (g : Globals) :
  g_cov g = None -> cell10 g = (Raise NameError, g).
Proof.
  intros H. unfold cell10, bind, name. rewrite H. reflexivity.
Qed.

(** X18: in a session where cell 9 has not run, cell 10 raises
    [NameError] at its first statement ([cov] is not bound) and changes no
    global, however often cells 6, 7 and 10 were run before. *)
Theorem cell10_before_cell9
  (leastsq : (list R -> py (list R)) -> list R -> py (list R * option matrix))
  (cs : list cell) (m : Mem) :
  Forall (fun c => c <> Cell9) cs ->
  cell10 (run leastsq cs (start m))
  = (Raise NameError, run leastsq cs (start m)).
Proof.
  intros H. apply cell10_unbound_cov.
  assert (G : forall g, g_cov g = None -> g_cov (run leastsq cs g) = None).
  { induction H as [|c cs Hc _ IH]; intros g Hg; cbn [run]; [exact Hg|].
    apply IH. destruct c; cbn [run_cell].
    - rewrite keeps_cov_cell6. exact Hg.
    - rewrite keeps_cov_cell7. exact Hg.
    - congruence.
    - rewrite cell10_unbound_cov by exact Hg. exact Hg. }
  apply G. reflexivity.
Qed.

Lemma cell10_before_cell9_witness :
  cell10 (run Recorded.flat_solver [Cell6; Cell7; Cell10; Cell7]
            (start Data.fresh_memory))
  = (Raise NameError,
     run Recorded.flat_solver [Cell6; Cell7; Cell10; Cell7]
       (start Data.fresh_memory)).
Proof.
  apply cell10_before_cell9.
  repeat constructor; discriminate.
Defined.

(** X19: with [ParameterSet] bound (cell 7 has run), a solution of four
    numbers and a 4x4 covariance of non-negative diagonal, cell 10 runs to
    its end without raising and binds [perr_leastsq] to the list of the
    loop; its two computations of the standard errors, [stderr] and
    [perr_leastsq], hold the same numbers. *)
Theorem cell10_completes (g : Globals) (r0 r1 r2 r3 : R) (rows : matrix) :
  g_ParameterSet g = true ->
  g_result g = Some [r0; r1; r2; r3] ->
  g_cov g = Some (Some rows) ->
  is_4x4 rows ->
  Forall (fun d => 0 <= d) (diag_from 0 rows) ->
  fst (cell10 g) = Ok tt
  /\ g_perr_leastsq (snd (cell10 g))
     = Some (error_loop [r0; r1; r2; r3] (Some rows))
  /\ g_stderr (snd (cell10 g))
     = Some (map Num (error_loop [r0; r1; r2; r3] (Some rows))).
Proof.
  intros Hp Hr Hc H4 F.
  destruct (is_4x4_inv rows H4)
    as (a0 & a1 & a2 & a3 & b0 & b1 & b2 & b3
        & c0 & c1 & c2 & c3 & d0 & d1 & d2 & d3 & ->).
  destruct (cell10_run g r0 r1 r2 r3 _ a0 b1 c2 d3 Hp Hr Hc eq_refl)
    as (Hok & _ & _ & Hs & He).
  split; [exact Hok|]. split; [exact He|].
  rewrite Hs.
  cbn [diag_from nth_error] in F.
  inversion F as [|? ? F0 Fa]; subst.
  inversion Fa as [|? ? F1 Fb]; subst.
  inversion Fb as [|? ? F2 Fc]; subst.
  inversion Fc as [|? ? F3 _]; subst.
  rewrite !np_sqrt_nonneg by assumption.
  rewrite error_loop_4. unfold error_append. cbn [cov_entry index nth_error].
  cbn [app map]. rewrite !Rabs_right by lra. reflexivity.
Qed.

Lemma cell10_completes_witness :
  let g := run Recorded.recorded_solver [Cell6; Cell7; Cell9]
             (start Data.fresh_memory) in
  fst (cell10 g) = Ok tt
  /\ g_perr_leastsq (snd (cell10 g))
     = Some (error_loop [6; 45e3; -10e3; -50] (Some Recorded.cov))
  /\ g_stderr (snd (cell10 g))
     = Some (map Num (error_loop [6; 45e3; -10e3; -50]
                        (Some Recorded.cov))).
Proof.
  intros g.
  destruct (recorded_session Data.fresh_memory) as (Hp & Hr & Hc).
  apply (cell10_completes g 6 45e3 (-10e3) (-50) Recorded.cov);
    [exact Hp|exact Hr|exact Hc|split; [reflexivity|repeat constructor]|].
  unfold Recorded.cov. cbn [diag_from nth_error].
  repeat constructor; lra.
Defined.

End ReportMore.

(** ** Further properties of the session *)

Module SessionMore.
Import Model Py PyFacts Residuals ResidualsFacts Variants ResidualsMore.
Import Report ReportFacts Notebook NotebookFacts.
Local Open Scope py_scope.













(** X21: what cell 9 hands to the solver is the residual function of the
    three experiments of cell 6: for any solver, cell 9 does what it would
    do if the solver were given, in place of [leastsqfunc] and its
    arguments, the map from a parameter vector to the residuals of the
    specification for its first four entries ([IndexError] below four). *)
Theorem cell9_fits_the_three_experiments
  (leastsq : (list R -> py (list R)) -> list R -> py (list R * option matrix))
  (g : Globals) :
  cell9 leastsq g
  = cell9 (fun _ x0 => leastsq notebook_residuals x0) g.
Proof. apply cell9_to_the_solver. Qed.

(** *** The order of the cells *)

(** Cell 9 when [array] is not bound: it stops at [C_A = array(...)], with
    [t] and [tcombined] allocated and [tcombined] bound. *)
Lemma cell9_no_array leastsq (h : list (list R)) (j : loc -> nat -> R)
  ex ps sg op se tc ca res cov st pe :
  cell9 leastsq
    (mkGlobals (mkMem h j) false ex ps sg op se tc ca res cov st pe)
  = (Raise NameError,
     mkGlobals (mkMem ((h ++ [Data.t]) ++ [Data.tcombined]) j) false ex ps
       sg op se (Some (length (h ++ [Data.t]))) ca res cov st pe).
Proof.
  unfold cell9.
  cbv beta iota zeta delta
    [bind in_mem np_array load set_tcombined set_C_A set_fit name bound lift
     ret fst snd heap junk g_mem g_array g_experiments g_ParameterSet
     g_starting_guess g_optimized_parameters g_standard_errors g_tcombined
     g_C_A g_result g_cov g_stderr g_perr_leastsq].
  rewrite nth_error_snoc_new. reflexivity.
Qed.

(** X22: cell 9 needs cell 6.  In a session in which cell 6 has not run,
    whatever cells 7, 9 and 10 did, cell 9 stops with [NameError] at
    [C_A = array(...)]: it has allocated [t] and [tcombined], it does not
    call the solver (any other solver gives the same outcome), and
    [result] and [cov] are still unbound, so that cell 10 stops with
    [NameError] too. *)
Theorem cell9_before_cell6
  (leastsq leastsq' :
     (list R -> py (list R)) -> list R -> py (list R * option matrix))
  (cs : list cell) (m : Mem) :
  Forall (fun c => c <> Cell6) cs ->
  let g := run leastsq cs (start m) in
  fst (cell9 leastsq g) = Raise NameError
  /\ cell9 leastsq' g = cell9 leastsq g
  /\ heap (g_mem (snd (cell9 leastsq g)))
     = heap (g_mem g) ++ [Data.t; Data.tcombined]
  /\ g_result (snd (cell9 leastsq g)) = None
  /\ g_cov (snd (cell9 leastsq g)) = None
  /\ fst (cell10 (snd (cell9 leastsq g))) = Raise NameError.
Proof.
  intros H g.
  assert (I : g_array g = false /\ g_result g = None /\ g_cov g = None).
  { subst g. generalize (start m) (conj (eq_refl : g_array (start m) = false)
               (conj (eq_refl : g_result (start m) = None)
                  (eq_refl : g_cov (start m) = None))).
    induction H as [|c cs Hc _ IH]; intros g0 I0; cbn [run]; [exact I0|].
    apply IH. destruct I0 as (Ia & Ir & Ic).
    destruct g0 as [[h j] ar ex ps sg op se tc ca res cov st pe].
    cbn in Ia, Ir, Ic. subst ar res cov.
    destruct c; cbn [run_cell].
    - congruence.
    - repeat split.
    - rewrite cell9_no_array. repeat split.
    - rewrite ReportMore.cell10_unbound_cov by reflexivity. repeat split. }
  destruct I as (Ia & Ir & Ic).
  destruct g as [[h j] ar ex ps sg op se tc ca res cov st pe].
  cbn in Ia, Ir, Ic. subst ar res cov.
  rewrite !cell9_no_array. cbn [fst snd g_mem heap g_result g_cov].
  split; [reflexivity|]. split; [reflexivity|].
  split; [rewrite <- app_assoc; reflexivity|].
  split; [reflexivity|]. split; [reflexivity|].
  rewrite ReportMore.cell10_unbound_cov by reflexivity. reflexivity.
Qed.

Lemma cell9_before_cell6_witness :
  let g := run Recorded.recorded_solver [Cell7; Cell9; Cell10]
             (start Data.fresh_memory) in
  fst (cell9 Recorded.recorded_solver g) = Raise NameError
  /\ cell9 Recorded.flat_solver g = cell9 Recorded.recorded_solver g
  /\ heap (g_mem (snd (cell9 Recorded.recorded_solver g)))
     = heap (g_mem g) ++ [Data.t; Data.tcombined]
  /\ g_result (snd (cell9 Recorded.recorded_solver g)) = None
  /\ g_cov (snd (cell9 Recorded.recorded_solver g)) = None
  /\ fst (cell10 (snd (cell9 Recorded.recorded_solver g))) = Raise NameError.
Proof.
  apply (cell9_before_cell6 Recorded.recorded_solver Recorded.flat_solver
           [Cell7; Cell9; Cell10] Data.fresh_memory).
  repeat constructor; discriminate.
Defined.

Lemma keeps_ParameterSet_error_turns cov range error :
  keeps g_ParameterSet (error_turns cov range error).
Proof.
  revert error. induction range as [|i range IH]; intros error; simpl.
  - apply keeps_ret.
  - apply keeps_bind; [keeps_assign|intros _; apply IH].
Qed.

Lemma keeps_ParameterSet_cell6 : keeps g_ParameterSet cell6.
Proof. unfold cell6. keeps_steps. Qed.

Lemma keeps_ParameterSet_cell9 leastsq : keeps g_ParameterSet (cell9 leastsq).
Proof. unfold cell9. keeps_steps. Qed.

Lemma keeps_optimized_cell6 : keeps g_optimized_parameters cell6.
Proof. unfold cell6. keeps_steps. Qed.

Lemma keeps_optimized_cell9 leastsq :
  keeps g_optimized_parameters (cell9 leastsq).
Proof. unfold cell9. keeps_steps. Qed.

Lemma keeps_errors_cell6 : keeps g_standard_errors cell6.
Proof. unfold cell6. keeps_steps. Qed.

Lemma keeps_errors_cell9 leastsq : keeps g_standard_errors (cell9 leastsq).
Proof. unfold cell9. keeps_steps. Qed.

(** Cell 10 when [ParameterSet] is not bound: it raises, at [cov], at
    [np.diag(cov)] or at the first call of [ParameterSet], and neither
    record is assigned. *)
Lemma cell10_no_ParameterSet (g : Globals) :
  g_ParameterSet g = false ->
  (fst (cell10 g) = Raise NameError \/ fst (cell10 g) = Raise ValueError)
  /\ g_ParameterSet (snd (cell10 g)) = false
  /\ g_optimized_parameters (snd (cell10 g)) = g_optimized_parameters g
  /\ g_standard_errors (snd (cell10 g)) = g_standard_errors g.
Proof.
  intros Hp.
  destruct g as [m ar ex ps sg op se tc ca res cov st pe].
  cbn in Hp. subst ps.
  destruct cov as [[rows|]|].
  - split; [left; reflexivity|repeat split].
  - split; [right; reflexivity|repeat split].
  - split; [left; reflexivity|repeat split].
Qed.

(** X23: cell 10 needs cell 7.  In a session in which cell 7 has not run,
    whatever the solver returned to cell 9, no record is published:
    [optimized_parameters] and [standard_errors] are unbound, and cell 10
    raises ([NameError] at [cov] or at the call of [ParameterSet],
    [ValueError] at [np.diag(cov)] when there is no covariance) and
    leaves them unbound. *)
Theorem cell10_before_cell7
  (leastsq : (list R -> py (list R)) -> list R -> py (list R * option matrix))
  (cs : list cell) (m : Mem) :
  Forall (fun c => c <> Cell7) cs ->
  let g := run leastsq cs (start m) in
  g_optimized_parameters g = None
  /\ g_standard_errors g = None
  /\ (fst (cell10 g) = Raise NameError \/ fst (cell10 g) = Raise ValueError)
  /\ g_optimized_parameters (snd (cell10 g)) = None
  /\ g_standard_errors (snd (cell10 g)) = None.
Proof.
  intros H g.
  assert (I : g_ParameterSet g = false /\ g_optimized_parameters g = None
              /\ g_standard_errors g = None).
  { subst g.
    generalize (start m)
      (conj (eq_refl : g_ParameterSet (start m) = false)
         (conj (eq_refl : g_optimized_parameters (start m) = None)
            (eq_refl : g_standard_errors (start m) = None))).
    induction H as [|c cs Hc _ IH]; intros g0 I0; cbn [run]; [exact I0|].
    apply IH. destruct I0 as (Ip & Io & Is).
    destruct c; cbn [run_cell].
    - rewrite keeps_ParameterSet_cell6, keeps_optimized_cell6,
        keeps_errors_cell6. repeat split; assumption.
    - congruence.
    - rewrite keeps_ParameterSet_cell9, keeps_optimized_cell9,
        keeps_errors_cell9. repeat split; assumption.
    - destruct (cell10_no_ParameterSet g0 Ip) as (_ & Hp' & Ho' & Hs').
      rewrite Hp', Ho', Hs'. repeat split; assumption. }
  destruct I as (Ip & Io & Is).
  destruct (cell10_no_ParameterSet g Ip) as (He & _ & Ho' & Hs').
  rewrite Ho', Hs'. repeat split; assumption.
Qed.

Lemma cell10_before_cell7_witness :
  let g := run Recorded.recorded_solver [Cell6; Cell9]
             (start Data.fresh_memory) in
  g_optimized_parameters g = None
  /\ g_standard_errors g = None
  /\ (fst (cell10 g) = Raise NameError \/ fst (cell10 g) = Raise ValueError)
  /\ g_optimized_parameters (snd (cell10 g)) = None
  /\ g_standard_errors (snd (cell10 g)) = None.
Proof.
  apply (cell10_before_cell7 Recorded.recorded_solver [Cell6; Cell9]
           Data.fresh_memory).
  repeat constructor; discriminate.
Defined.

End SessionMore.
